(** * Hotel deep search: the multi-provider query executor, the response
      normalizer and the layer aggregator of [deep_search_system.py]

    The development embeds the class [HotelKnowledgeDeepSearch] of
    [src/deep_search_system.py]:

    - [_parse_llm_response]  (the response normalizer),
    - [_execute_search]      (primary provider, then secondary provider),
    - the five [_search_*] category methods,
    - [deep_search_hotel_data] (the aggregator with its synthesis call),

    and the two reads of [search_history] in [get_analytics] of
    [src/api_server.py].

    Python values are a small inductive type of JSON-shaped data, with a
    dict kept as an association list in insertion order.  Exceptions are
    values of [py_exception]; a method is a function from the state of the
    object (and the log of provider invocations) to a returned value or a
    raised exception, together with the new state.  What the program takes
    from outside - the two language-model providers, [json.loads],
    [json.dumps] and the clock - are variables of the section the methods
    live in, so every theorem there holds for each behaviour of them. *)

From Stdlib Require Import String Ascii List Bool Arith ZArith QArith Lia.
From Stdlib Require Import DecimalString.
Import ListNotations.

Close Scope Q_scope.
Open Scope list_scope.
Open Scope string_scope.

Set Warnings "-register-all".

(** ** Python values *)

(** A float literal is kept as the decimal fraction it is written as; the
    program does no arithmetic on floats. *)
Inductive py_value : Type :=
| PyNone
| PyBool (b : bool)
| PyInt (z : Z)
| PyFloat (q : Q)
| PyStr (s : string)
| PyList (l : list py_value)
| PyDict (d : list (string * py_value)).

Definition py_dict : Type := list (string * py_value).

(** [d.get(k)] *)
Fixpoint dict_get (d : py_dict) (k : string) : option py_value :=
  match d with
  | [] => None
  | (k', v) :: d' => if String.eqb k' k then Some v else dict_get d' k
  end.

(** [d[k] = v]: an existing key keeps its place, a new key goes last. *)
Fixpoint dict_set (d : py_dict) (k : string) (v : py_value) : py_dict :=
  match d with
  | [] => [(k, v)]
  | (k', v') :: d' =>
      if String.eqb k' k then (k', v) :: d' else (k', v') :: dict_set d' k v
  end.

Definition dict_keys (d : py_dict) : list string := map fst d.

(** The field [k] of a value: only a dict that has the key has one. *)
Definition field (v : py_value) (k : string) : option py_value :=
  match v with
  | PyDict d => dict_get d k
  | _ => None
  end.

Definition has_field (v : py_value) (k : string) : bool :=
  match field v k with
  | Some _ => true
  | None => false
  end.

(** The findings of a layer result: the elements of its [results] list. *)
Definition findings (v : py_value) : list py_value :=
  match field v "results" with
  | Some (PyList l) => l
  | _ => []
  end.

(** The five fields of a layer result, as the response format of
    [_execute_search] and the normalizer name them. *)
Definition layer_result_fields : list string :=
  ["status"; "results"; "summary"; "total_matches"; "search_metadata"].

(** ** Strings *)

(** A Python [str] is a [string] here, one [ascii] for each of its
    characters, so that [len] is [String.length] and a slice is a
    [substring]. *)

Definition dq : string := String "034"%char EmptyString.
Definition nl : string := String "010"%char EmptyString.

(** The text of a triple-quoted literal, line by line. *)
Definition unlines (ls : list string) : string := String.concat nl ls.

(** [s[:n]] *)
Definition py_slice_to (n : nat) (s : string) : string := substring 0 n s.

(** [str(n)] for a non-negative integer. *)
Definition str_of_nat (n : nat) : string :=
  NilEmpty.string_of_uint (Nat.to_uint n).

(** ** Exceptions, results and state *)

(** The exceptions of the program, all subclasses of [Exception], so that
    [except Exception] catches each of them: [JSONDecodeError] is raised by
    [json.loads]; [UnboundLocalError] by the read of a local variable that
    was never assigned; [PyException] is an exception of any other class,
    with its message, as a provider call raises, or [json.loads] on a text
    it gives up on.  What is no [Exception] (an interrupt, the exit of
    the interpreter) and the exhaustion of memory or of the stack are
    outside the model. *)
Inductive py_exception : Type :=
| PyException (msg : string)
| JSONDecodeError (msg : string)
| UnboundLocalError (name : string).

(** [str(e)]; the wording for an unbound local is CPython's (3.11 on). *)
Definition exc_str (e : py_exception) : string :=
  match e with
  | PyException msg => msg
  | JSONDecodeError msg => msg
  | UnboundLocalError name =>
      "cannot access local variable '" ++ name
      ++ "' where it is not associated with a value"
  end.

Inductive result (A : Type) : Type :=
| Return (a : A)
| Raise (e : py_exception).
Arguments Return {A} a.
Arguments Raise {A} e.

(** The two providers: [self.groq_llm] is the primary one,
    [self.gemini_llm] the secondary one. *)
Inductive provider : Type := Groq | Gemini.

Definition provider_eqb (p q : provider) : bool :=
  match p, q with
  | Groq, Groq | Gemini, Gemini => true
  | _, _ => false
  end.

(** The message object a provider's [invoke] returns; its [content] is
    the text the provider generated. *)
Record response : Type := { content : string }.

Definition invocation : Type := (provider * string)%type.

(** The state a method runs in: the [search_history] attribute of [self],
    and the log of the provider invocations made so far, each with its
    prompt, oldest first. *)
Record state : Type :=
  { search_history : list py_value;
    invocations : list invocation }.

(** [HotelKnowledgeDeepSearch.__init__], line 35: [self.search_history = []]. *)
Definition init_state : state :=
  {| search_history := []; invocations := [] |}.

(** The invocations of one provider in a log. *)
Definition calls_to (p : provider) (log : list invocation) : list string :=
  map snd (filter (fun c => provider_eqb (fst c) p) log).

(** What [json.loads] does on a text: it returns a value, or raises
    [JSONDecodeError] on a text that is not JSON, or raises an exception of
    another class, as the [ValueError] of CPython on an integer of more
    digits than its conversion limit allows, or a [RecursionError]. *)
Inductive decoded : Type :=
| Decoded (v : py_value)
| NotJSON (msg : string)
| LoadsRaises (msg : string).

(** ** The monad of methods *)

Definition M (A : Type) : Type := state -> result A * state.

Definition ret {A : Type} (a : A) : M A := fun st => (Return a, st).

Definition raise {A : Type} (e : py_exception) : M A :=
  fun st => (Raise e, st).

Definition bind {A B : Type} (m : M A) (k : A -> M B) : M B :=
  fun st =>
    match m st with
    | (Return a, st') => k a st'
    | (Raise e, st') => (Raise e, st')
    end.

Notation "x <- m ;; k" := (bind m (fun x => k))
  (at level 100, m at next level, right associativity).

(** [try: body / except Exception as e: handler e] *)
Definition try_except {A : Type} (body : M A) (handler : py_exception -> M A)
  : M A :=
  fun st =>
    match body st with
    | (Return a, st') => (Return a, st')
    | (Raise e, st') => handler e st'
    end.

(** [try: body / except json.JSONDecodeError: handler]; any other
    exception passes through. *)
Definition try_except_JSONDecodeError {A : Type} (body handler : M A) : M A :=
  fun st =>
    match body st with
    | (Raise (JSONDecodeError _), st') => handler st'
    | other => other
    end.

(** ** The response normalizer *)

(** [_parse_llm_response(self, response)], lines 308-330.  It reads no
    attribute of [self] and calls nothing, so it is a function of its
    argument. *)
Definition _parse_llm_response (response : string) : py_value :=
  PyDict
    [ ("status", PyStr "parsed")
    ; ("results", PyList
        [ PyDict
            [ ("category", PyStr "general")
            ; ("subcategory", PyStr "information_extracted")
            ; ("data", PyStr response)
            ; ("confidence", PyFloat (7 # 10)%Q)
            ; ("source", PyStr "llm_response")
            ; ("relevance_score", PyFloat (6 # 10)%Q)
            ; ("additional_context", PyStr "Parsed from text response")
            ] ])
    ; ("summary", PyStr (if (200 <? String.length response)%nat
                         then py_slice_to 200 response ++ "..."
                         else response))
    ; ("total_matches", PyInt 1)
    ; ("search_metadata", PyDict
        [ ("query_analysis", PyStr "general_text_search")
        ; ("search_strategy", PyStr "llm_parsing")
        ; ("processing_time", PyStr "fallback_method")
        ])
    ].

(** ** The prompt templates *)

(** Each f-string is the list of its lines, the first one empty since the
    text starts with a line break, with the formatted values in place. *)

Section Templates.

(** [json.dumps(results, indent=2, default=str)] *)
Variable json_dumps : py_value -> string.

(** [synthesis_prompt], lines 63-78. *)
Definition synthesis_prompt_of (query : string) (results : py_value) : string :=
  unlines
    [ ""
    ; "        You are a hotel data analyst. Based on the following search results, "
    ; "        provide a comprehensive analysis for the query: " ++ dq ++ query ++ dq
    ; "        "
    ; "        Search Results:"
    ; "        " ++ json_dumps results
    ; "        "
    ; "        Provide:"
    ; "        1. Main findings"
    ; "        2. Specific data points"
    ; "        3. Related information"
    ; "        4. Actionable insights"
    ; "        5. Sources confidence scores"
    ; "        "
    ; "        Format as detailed JSON response."
    ; "        "
    ].

(** [search_prompt] of [_search_booking_data], lines 97-114. *)
Definition booking_prompt (query : string) : string :=
  unlines
    [ ""
    ; "        Search for booking information related to: " ++ dq ++ query ++ dq
    ; "        "
    ; "        Look for:"
    ; "        - Booking dates and availability"
    ; "        - Room types and pricing"
    ; "        - Booking status"
    ; "        - Guest information"
    ; "        - Special requests"
    ; "        "
    ; "        Search patterns:"
    ; "        - Room numbers (101, 102, A1, B2, etc.)"
    ; "        - Date patterns (YYYY-MM-DD, DD/MM/YYYY)"
    ; "        - Status patterns (confirmed, pending, cancelled)"
    ; "        - Price patterns (THB, USD, etc.)"
    ; "        "
    ; "        Provide results in structured format."
    ; "        "
    ].

(** [search_prompt] of [_search_financial_data], lines 123-142. *)
Definition financial_prompt (query : string) : string :=
  unlines
    [ ""
    ; "        Search for financial information related to: " ++ dq ++ query ++ dq
    ; "        "
    ; "        Look for:"
    ; "        - Revenue and expenses"
    ; "        - Invoice numbers and dates"
    ; "        - Payment methods"
    ; "        - Financial reports"
    ; "        - Budget information"
    ; "        - Cost centers"
    ; "        "
    ; "        Search patterns:"
    ; "        - Invoice numbers (INV-, Receipt-, #)"
    ; "        - Amount patterns (numbers with currency symbols)"
    ; "        - Date patterns for financial periods"
    ; "        - Department codes"
    ; "        - Budget line items"
    ; "        "
    ; "        Provide structured financial analysis."
    ; "        "
    ].

(** [search_prompt] of [_search_guest_data], lines 151-170. *)
Definition guest_prompt (query : string) : string :=
  unlines
    [ ""
    ; "        Search for guest information related to: " ++ dq ++ query ++ dq
    ; "        "
    ; "        Look for:"
    ; "        - Guest names and contact details"
    ; "        - Booking history"
    ; "        - Preferences and special needs"
    ; "        - Loyalty program status"
    ; "        - Feedback and complaints"
    ; "        - Contact information"
    ; "        "
    ; "        Search patterns:"
    ; "        - Guest IDs (GUEST-, CUST-)"
    ; "        - Phone numbers (Thai: 0xxx, international: +xx)"
    ; "        - Email patterns"
    ; "        - Membership tiers"
    ; "        - Stay patterns"
    ; "        "
    ; "        Provide comprehensive guest profile data."
    ; "        "
    ].

(** [search_prompt] of [_search_staff_data], lines 179-199. *)
Definition staff_prompt (query : string) : string :=
  unlines
    [ ""
    ; "        Search for staff information related to: " ++ dq ++ query ++ dq
    ; "        "
    ; "        Look for:"
    ; "        - Staff names and positions"
    ; "        - Work schedules"
    ; "        - Department assignments"
    ; "        - Contact information"
    ; "        - Performance records"
    ; "        - Training certifications"
    ; "        - Emergency contacts"
    ; "        "
    ; "        Search patterns:"
    ; "        - Employee IDs (EMP-, STAFF-)"
    ; "        - Department codes (FRONT, HK, MGMT)"
    ; "        - Position titles"
    ; "        - Shift patterns"
    ; "        - Badge numbers"
    ; "        "
    ; "        Provide complete staff directory information."
    ; "        "
    ].

(** [search_prompt] of [_search_policies_procedures], lines 208-228. *)
Definition policies_prompt (query : string) : string :=
  unlines
    [ ""
    ; "        Search for hotel policies and procedures related to: " ++ dq ++ query ++ dq
    ; "        "
    ; "        Look for:"
    ; "        - Operating procedures"
    ; "        - Safety protocols"
    ; "        - Service standards"
    ; "        - Emergency procedures"
    ; "        - Company policies"
    ; "        - Regulatory compliance"
    ; "        - Training materials"
    ; "        "
    ; "        Search patterns:"
    ; "        - Policy numbers (POL-, SOP-)"
    ; "        - Procedure keywords (check-in, checkout, emergency)"
    ; "        - Regulation references"
    ; "        - Safety guidelines"
    ; "        - Quality standards"
    ; "        "
    ; "        Provide comprehensive policy documentation."
    ; "        "
    ].

(** [enhanced_prompt] of [_execute_search], lines 238-277; the doubled
    braces of the f-string are single braces of the text. *)
Definition enhanced_prompt_of (prompt search_type : string) : string :=
  unlines
    [ ""
    ; "        You are a hotel information specialist with deep domain knowledge."
    ; "        "
    ; "        Your task is to search through available hotel data and provide comprehensive results."
    ; "        "
    ; "        Query: " ++ prompt
    ; "        Search Type: " ++ search_type
    ; "        "
    ; "        Instructions:"
    ; "        1. Analyze the query for key information needs"
    ; "        2. Look for relevant patterns and data structures"
    ; "        3. Extract specific, actionable information"
    ; "        4. Provide confidence scores for each finding"
    ; "        5. Suggest related information that might be helpful"
    ; "        "
    ; "        Response Format:"
    ; "        {"
    ; "            " ++ dq ++ "status" ++ dq ++ ": " ++ dq ++ "success|partial|not_found" ++ dq ++ ","
    ; "            " ++ dq ++ "results" ++ dq ++ ": ["
    ; "                {"
    ; "                    " ++ dq ++ "category" ++ dq ++ ": " ++ dq ++ "main_category" ++ dq ++ ","
    ; "                    " ++ dq ++ "subcategory" ++ dq ++ ": " ++ dq ++ "specific_subcategory" ++ dq ++ ", "
    ; "                    " ++ dq ++ "data" ++ dq ++ ": " ++ dq ++ "specific_information" ++ dq ++ ","
    ; "                    " ++ dq ++ "confidence" ++ dq ++ ": 0.0-1.0,"
    ; "                    " ++ dq ++ "source" ++ dq ++ ": " ++ dq ++ "data_source_type" ++ dq ++ ","
    ; "                    " ++ dq ++ "relevance_score" ++ dq ++ ": 0.0-1.0,"
    ; "                    " ++ dq ++ "additional_context" ++ dq ++ ": " ++ dq ++ "related_info" ++ dq
    ; "                }"
    ; "            ],"
    ; "            " ++ dq ++ "summary" ++ dq ++ ": " ++ dq ++ "brief_overview" ++ dq ++ ","
    ; "            " ++ dq ++ "total_matches" ++ dq ++ ": number,"
    ; "            " ++ dq ++ "search_metadata" ++ dq ++ ": {"
    ; "                " ++ dq ++ "query_analysis" ++ dq ++ ": " ++ dq ++ "query_breakdown" ++ dq ++ ","
    ; "                " ++ dq ++ "search_strategy" ++ dq ++ ": " ++ dq ++ "method_used" ++ dq ++ ","
    ; "                " ++ dq ++ "processing_time" ++ dq ++ ": " ++ dq ++ "duration" ++ dq
    ; "            }"
    ; "        }"
    ; "        "
    ; "        Be thorough but focused on providing actionable hotel management data."
    ; "        "
    ].

End Templates.

(** ** What the program takes from outside *)

(** - [llm_invoke p log prompt]: what [invoke(prompt)] of provider [p] does,
      given every invocation made before it: it returns a message or raises.
      A provider may answer differently each time it is asked.
    - [json_loads]: the text is a [str], on which [json.loads] returns a
      value, raises [JSONDecodeError] or raises another exception.
    - [json_dumps]: [json.dumps(_, indent=2, default=str)].
    - [datetime_now_isoformat]: [datetime.now().isoformat()]. *)
Record runtime : Type :=
  { llm_invoke : provider -> list invocation -> string -> result response;
    json_loads : string -> decoded;
    json_dumps : py_value -> string;
    datetime_now_isoformat : state -> string }.

(** ** The methods of [HotelKnowledgeDeepSearch] *)

Section Methods.

Variable rt : runtime.

(** [self.groq_llm.invoke(prompt)] and [self.gemini_llm.invoke(prompt)]:
    the invocation is logged, whether it returns or raises. *)
Definition invoke (p : provider) (prompt : string) : M response :=
  fun st =>
    (llm_invoke rt p (invocations st) prompt,
     {| search_history := search_history st;
        invocations := (invocations st ++ [(p, prompt)])%list |}).

(** [json.loads(s)] *)
Definition json_loads_call (s : string) : M py_value :=
  match json_loads rt s with
  | Decoded v => ret v
  | NotJSON msg => raise (JSONDecodeError msg)
  | LoadsRaises msg => raise (PyException msg)
  end.

(** [datetime.now().isoformat()] *)
Definition now_isoformat : M string :=
  fun st => (Return (datetime_now_isoformat rt st), st).

(** Lines 300-306, the handler of the inner [try] of [_execute_search].
    [fallback_response] is the local variable of that name: [None] when
    the assignment of line 294 did not happen, because [invoke] raised.
    The dict display is evaluated in order; its last value reads
    [fallback_response], which raises [UnboundLocalError] when the variable
    is unbound.  A bound one is a message, which has a [content], so
    [hasattr] holds.  The first exception [e] goes to the log only. *)
Definition both_failed_handler
  (fallback_response : option response) (e e2 : py_exception) : M py_value :=
  (* logger.error(f"Both LLMs failed: {e}, {e2}") *)
  match fallback_response with
  | Some r =>
      ret (PyDict
             [ ("status", PyStr "error")
             ; ("error", PyStr ("Search failed: " ++ exc_str e2))
             ; ("raw_response", PyStr (content r)) ])
  | None => raise (UnboundLocalError "fallback_response")
  end.

(** [_execute_search(self, prompt, search_type)], lines 235-306. *)
Definition _execute_search (prompt search_type : string) : M py_value :=
  let enhanced_prompt := enhanced_prompt_of prompt search_type in
  try_except
    (response <- invoke Groq enhanced_prompt ;;
     try_except_JSONDecodeError
       (parsed <- json_loads_call (content response) ;; ret parsed)
       (ret (_parse_llm_response (content response))))
    (fun e =>
       (* logger.warning(f"GROQ failed, trying Gemini: {e}") *)
       fun st =>
         match invoke Gemini enhanced_prompt st with
         | (Raise e2, st') => both_failed_handler None e e2 st'
         | (Return fallback_response, st') =>
             try_except
               (try_except_JSONDecodeError
                  (parsed <- json_loads_call (content fallback_response) ;;
                   ret parsed)
                  (ret (_parse_llm_response (content fallback_response))))
               (both_failed_handler (Some fallback_response) e)
               st'
         end).

(** The five category methods, lines 95-233: each builds its prompt and
    calls [_execute_search] under [except Exception as e]. *)
Definition _search_booking_data (query : string) : M py_value :=
  let search_prompt := booking_prompt query in
  try_except (_execute_search search_prompt "booking_search")
             (fun e => ret (PyDict [("error", PyStr (exc_str e))])).

Definition _search_financial_data (query : string) : M py_value :=
  let search_prompt := financial_prompt query in
  try_except (_execute_search search_prompt "financial_search")
             (fun e => ret (PyDict [("error", PyStr (exc_str e))])).

Definition _search_guest_data (query : string) : M py_value :=
  let search_prompt := guest_prompt query in
  try_except (_execute_search search_prompt "guest_search")
             (fun e => ret (PyDict [("error", PyStr (exc_str e))])).

Definition _search_staff_data (query : string) : M py_value :=
  let search_prompt := staff_prompt query in
  try_except (_execute_search search_prompt "staff_search")
             (fun e => ret (PyDict [("error", PyStr (exc_str e))])).

Definition _search_policies_procedures (query : string) : M py_value :=
  let search_prompt := policies_prompt query in
  try_except (_execute_search search_prompt "policy_search")
             (fun e => ret (PyDict [("error", PyStr (exc_str e))])).

(** [search_layers], lines 43-49: each method with its [__name__]. *)
Definition search_layers : list (string * (string -> M py_value)) :=
  [ ("_search_booking_data", _search_booking_data)
  ; ("_search_financial_data", _search_financial_data)
  ; ("_search_guest_data", _search_guest_data)
  ; ("_search_staff_data", _search_staff_data)
  ; ("_search_policies_procedures", _search_policies_procedures) ].

(** [f'layer_{i+1}_{search_func.__name__}'] *)
Definition layer_key (i : nat) (name : string) : string :=
  "layer_" ++ str_of_nat (i + 1) ++ "_" ++ name.

(** The loop of lines 53-60 over [enumerate(search_layers)], from index
    [i] on. *)
Fixpoint run_layers (query : string) (i : nat)
  (layers : list (string * (string -> M py_value))) (results : py_dict)
  : M py_dict :=
  match layers with
  | [] => ret results
  | (name, search_func) :: layers' =>
      results' <-
        try_except
          (layer_result <- search_func query ;;
           (* logger.info(f"Layer {i+1} search completed") *)
           ret (dict_set results (layer_key i name) layer_result))
          (fun e =>
             (* logger.error(f"Layer {i+1} search failed: {e}") *)
             ret (dict_set results (layer_key i name)
                    (PyDict [("error", PyStr (exc_str e))]))) ;;
      run_layers query (S i) layers' results'
  end.

(** Lines 80-88: the synthesis call and its fallback. *)
Definition synthesize (synthesis_prompt : string) (results : py_dict)
  : M py_dict :=
  try_except
    (final_analysis <- invoke Groq synthesis_prompt ;;
     ret (dict_set results "synthesis" (PyStr (content final_analysis))))
    (fun e =>
       try_except
         (fallback_analysis <- invoke Gemini synthesis_prompt ;;
          ret (dict_set results "synthesis"
                 (PyStr (content fallback_analysis))))
         (fun e2 =>
            ret (dict_set results "synthesis"
                   (PyDict
                      [ ("error",
                         PyStr ("Both LLMs failed: " ++ exc_str e ++ ", "
                                ++ exc_str e2)) ])))).

(** [deep_search_hotel_data(self, query)], lines 37-93. *)
Definition deep_search_hotel_data (query : string) : M py_value :=
  (* logger.info(f"Deep searching for: {query}") *)
  results <- run_layers query 0 search_layers [] ;;
  let synthesis_prompt :=
    synthesis_prompt_of (json_dumps rt) query (PyDict results) in
  results <- synthesize synthesis_prompt results ;;
  timestamp <- now_isoformat ;;
  let results := dict_set results "search_timestamp" (PyStr timestamp) in
  let results := dict_set results "query" (PyStr query) in
  ret (PyDict results).

End Methods.

(** ** The reader of the history *)

(** [get_analytics] of [api_server.py], lines 201-202:
    [len(deep_search.search_history)] and
    [deep_search.search_history[-1] if deep_search.search_history else None]. *)
Definition analytics_search_count (st : state) : nat :=
  List.length (search_history st).

Definition analytics_last_search (st : state) : py_value :=
  last (search_history st) PyNone.

(** ** Runtimes for the examples *)

(** A provider pair that follows a script: the k-th invocation of the run,
    whichever provider it goes to, gets the k-th outcome of the script; an
    invocation past the end of the script fails. *)
Definition llm_scripted (script : list (result response))
  (p : provider) (log : list invocation) (prompt : string) : result response :=
  nth (List.length log) script (Raise (PyException "connection refused")).

Definition answers (text : string) : result response :=
  Return {| content := text |}.

Definition fails (msg : string) : result response :=
  Raise (PyException msg).

(** A decoder for the examples.  It reads the JSON literals [null], [true]
    and [false] and the unsigned integer literals, as [json.loads] does:
    an integer of more than 4300 digits makes CPython's conversion raise
    [ValueError].  It takes every other text as undecodable; the examples
    give it only literals of these kinds and texts that are not JSON. *)
Definition json_loads_literal (s : string) : decoded :=
  if String.eqb s "null" then Decoded PyNone
  else if String.eqb s "true" then Decoded (PyBool true)
  else if String.eqb s "false" then Decoded (PyBool false)
  else
    match s, NilEmpty.uint_of_string s with
    | String c rest, Some u =>
        if andb (Ascii.eqb c "0") (negb (String.eqb rest ""))
        then NotJSON "Extra data: line 1 column 2 (char 1)"
        else if (4300 <? String.length s)%nat
        then LoadsRaises
               ("Exceeds the limit (4300 digits) for integer string conversion: value has "
                ++ str_of_nat (String.length s)
                ++ " digits; use sys.set_int_max_str_digits() to increase the limit")
        else Decoded (PyInt (Z.of_uint u))
    | _, _ => NotJSON "Expecting value: line 1 column 1 (char 0)"
    end.

(** An integer literal of 4301 digits. *)
Definition long_integer_text : string :=
  string_of_list_ascii (repeat "1"%char 4301).

Definition bs : string := String "092"%char EmptyString.

Definition hex_digit (n : nat) : string :=
  String (nth n (list_ascii_of_string "0123456789abcdef") "0"%char)
    EmptyString.

(** The escapes of a string literal under [ensure_ascii]: the quote, the
    backslash, the short escapes of the control characters, and four hex
    digits for every other character outside the range from space to
    tilde. *)
Definition json_escape_char (c : ascii) : string :=
  let n := nat_of_ascii c in
  if Ascii.eqb c "034" then bs ++ dq
  else if Ascii.eqb c "092" then bs ++ bs
  else if Ascii.eqb c "010" then bs ++ "n"
  else if Ascii.eqb c "013" then bs ++ "r"
  else if Ascii.eqb c "009" then bs ++ "t"
  else if Ascii.eqb c "008" then bs ++ "b"
  else if Ascii.eqb c "012" then bs ++ "f"
  else if orb (n <? 32)%nat (126 <? n)%nat
  then bs ++ "u00" ++ hex_digit (n / 16) ++ hex_digit (n mod 16)
  else String c EmptyString.

Fixpoint json_escape (s : string) : string :=
  match s with
  | EmptyString => EmptyString
  | String c rest => json_escape_char c ++ json_escape rest
  end.

(** A text without the zeros at its end. *)
Fixpoint strip_trailing_zeros (s : string) : string :=
  match s with
  | EmptyString => EmptyString
  | String c rest =>
      match strip_trailing_zeros rest with
      | EmptyString => if Ascii.eqb c "0" then EmptyString
                       else String c EmptyString
      | rest' => String c rest'
      end
  end.

Fixpoint zeros (n : nat) : string :=
  match n with
  | O => EmptyString
  | S n' => String "0" (zeros n')
  end.

(** The text of a float: its decimal expansion, cut after seventeen
    places and without the zeros at its end, with one place at least.
    This is what [json.dumps] writes for the float of a decimal literal of
    few digits from 0.0001 up to 1e16, as the 0.7 and 0.6 of the
    normalizer; the examples serialize no other float. *)
Definition float_text (q : Q) : string :=
  let scaled := (Z.abs (Qnum q) * 10 ^ 17 / Zpos (Qden q))%Z in
  let whole := NilEmpty.string_of_int (Z.to_int (scaled / 10 ^ 17)) in
  let digits := NilEmpty.string_of_int (Z.to_int (scaled mod 10 ^ 17)) in
  let places :=
    strip_trailing_zeros (zeros (17 - String.length digits) ++ digits) in
  (if (Qnum q <? 0)%Z then "-" else "")
  ++ whole ++ "."
  ++ (if String.eqb places "" then "0" else places).

Fixpoint spaces (n : nat) : string :=
  match n with
  | O => EmptyString
  | S n' => String " " (spaces n')
  end.

(** A serializer for the examples, in the layout of [indent=2]: one item
    per line, two more spaces per level, and the empty containers closed
    at once. *)
Fixpoint json_dumps_indent2 (level : nat) (v : py_value) : string :=
  match v with
  | PyNone => "null"
  | PyBool true => "true"
  | PyBool false => "false"
  | PyInt z => NilEmpty.string_of_int (Z.to_int z)
  | PyFloat q => float_text q
  | PyStr s => dq ++ json_escape s ++ dq
  | PyList [] => "[]"
  | PyList l =>
      "[" ++ nl ++ spaces (2 * S level)
      ++ String.concat ("," ++ nl ++ spaces (2 * S level))
           (map (json_dumps_indent2 (S level)) l)
      ++ nl ++ spaces (2 * level) ++ "]"
  | PyDict [] => "{}"
  | PyDict d =>
      "{" ++ nl ++ spaces (2 * S level)
      ++ String.concat ("," ++ nl ++ spaces (2 * S level))
           (map (fun kv : string * py_value =>
                   let (k, x) := kv in
                   dq ++ json_escape k ++ dq ++ ": "
                   ++ json_dumps_indent2 (S level) x) d)
      ++ nl ++ spaces (2 * level) ++ "}"
  end.

(** The runtime of an example: scripted providers, the decoder and the
    serializer above, and a clock that stands still. *)
Definition example_runtime (script : list (result response)) : runtime :=
  {| llm_invoke := llm_scripted script;
     json_loads := json_loads_literal;
     json_dumps := json_dumps_indent2 0;
     datetime_now_isoformat := fun _ => "2024-12-01T09:30:00" |}.

(** Every provider call is answered, in plain text: the five layers, then
    the synthesis. *)
Definition all_answered_runtime : runtime :=
  example_runtime
    [ answers "Room 101 is free tomorrow."
    ; answers "No open invoices."
    ; answers "No guest of that name."
    ; answers "Front desk: two on shift."
    ; answers "See SOP-7."
    ; answers "Room 101 can be booked." ].

(** The primary provider answers an integer of 4301 digits, and the
    secondary provider a plain text. *)
Definition long_integer_runtime : runtime :=
  example_runtime [answers long_integer_text; answers "hello"].

(** Both providers are down for the third layer, the guest search, and
    for it only. *)
Definition guest_layer_down_runtime : runtime :=
  example_runtime
    [ answers "Room 101 is free tomorrow."
    ; answers "No open invoices."
    ; fails "groq: connection timed out"
    ; fails "gemini: service unavailable"
    ; answers "Front desk: two on shift."
    ; answers "See SOP-7."
    ; answers "Room 101 can be booked." ].

(** ** Abbreviations for the statements *)

(** The state once provider [p] was invoked on [prompt]. *)
Definition logged (st : state) (p : provider) (prompt : string) : state :=
  {| search_history := search_history st;
     invocations := (invocations st ++ [(p, prompt)])%list |}.

(** The record of lines 302-306 for a secondary answer [raw] on which
    [json.loads] raised an exception of message [msg]. *)
Definition error_record (msg raw : string) : py_value :=
  PyDict
    [ ("status", PyStr "error")
    ; ("error", PyStr ("Search failed: " ++ msg))
    ; ("raw_response", PyStr raw) ].

(** What [_execute_search] returns on the text of the provider that
    decides the call: the decoded value, the normalizer's wrapping of a
    text that is not JSON, or - on the secondary provider's text only,
    when [json.loads] raises another exception - the error record. *)
Definition result_of_text (rt : runtime) (text : string) : py_value :=
  match json_loads rt text with
  | Decoded v => v
  | NotJSON _ => _parse_llm_response text
  | LoadsRaises msg => error_record msg text
  end.

(** [json.loads] raised an exception that is no [JSONDecodeError]. *)
Definition loads_raises (d : decoded) : bool :=
  match d with
  | LoadsRaises _ => true
  | _ => false
  end.

(** The primary attempt fails: the call to the primary provider raises, or
    [json.loads] raises on its answer an exception that is no
    [JSONDecodeError].  Both land in the outer [except Exception] of line
    291. *)
Definition primary_fails (rt : runtime) (log : list invocation)
  (prompt : string) : bool :=
  match llm_invoke rt Groq log prompt with
  | Raise _ => true
  | Return r =>
      match json_loads rt (content r) with
      | LoadsRaises _ => true
      | _ => false
      end
  end.

(** What [_execute_search] does once the primary attempt has failed. *)
Definition fallback_outcome (rt : runtime) (st : state) (prompt : string)
  : result py_value * state :=
  (match llm_invoke rt Gemini (invocations (logged st Groq prompt)) prompt
   with
   | Return r => Return (result_of_text rt (content r))
   | Raise _ => Raise (UnboundLocalError "fallback_response")
   end,
   logged (logged st Groq prompt) Gemini prompt).

(** What [_execute_search] does on an enhanced prompt, read off the
    answers of the providers and of [json.loads]. *)
Definition execute_outcome (rt : runtime) (st : state) (prompt : string)
  : result py_value * state :=
  match llm_invoke rt Groq (invocations st) prompt with
  | Return r =>
      match json_loads rt (content r) with
      | Decoded v => (Return v, logged st Groq prompt)
      | NotJSON _ =>
          (Return (_parse_llm_response (content r)), logged st Groq prompt)
      | LoadsRaises _ => fallback_outcome rt st prompt
      end
  | Raise _ => fallback_outcome rt st prompt
  end.

(** The provider whose answer decides the call, with that answer: the
    primary one unless its attempt fails, else the secondary one when it
    answers. *)
Definition deciding_answer (rt : runtime) (st : state) (prompt : string)
  : option (provider * response) :=
  match llm_invoke rt Groq (invocations st) prompt with
  | Return r =>
      match json_loads rt (content r) with
      | LoadsRaises _ =>
          match llm_invoke rt Gemini (invocations (logged st Groq prompt))
                  prompt with
          | Return r2 => Some (Gemini, r2)
          | Raise _ => None
          end
      | _ => Some (Groq, r)
      end
  | Raise _ =>
      match llm_invoke rt Gemini (invocations (logged st Groq prompt))
              prompt with
      | Return r2 => Some (Gemini, r2)
      | Raise _ => None
      end
  end.

(** The keys of a dict after [d[k] = ...]. *)
Definition keys_add (ks : list string) (k : string) : list string :=
  if existsb (fun k' => String.eqb k' k) ks then ks else (ks ++ [k])%list.

(** The keys the loop of [deep_search_hotel_data] writes, from index [i]. *)
Fixpoint layer_keys (i : nat) (names : list string) : list string :=
  match names with
  | [] => []
  | name :: names' => layer_key i name :: layer_keys (S i) names'
  end.

(** The keys of every aggregate: the five layers in their order, the
    synthesis, the timestamp and the query. *)
Definition aggregate_keys : list string :=
  [ "layer_1__search_booking_data"
  ; "layer_2__search_financial_data"
  ; "layer_3__search_guest_data"
  ; "layer_4__search_staff_data"
  ; "layer_5__search_policies_procedures"
  ; "synthesis"
  ; "search_timestamp"
  ; "query" ].

(** The message [_execute_search] works on: the primary provider's when
    it answers, else the secondary provider's when that one answers. *)
Definition first_answer (rt : runtime) (st : state) (prompt : string)
  : option response :=
  match llm_invoke rt Groq (invocations st) prompt with
  | Return r => Some r
  | Raise _ =>
      match llm_invoke rt Gemini (invocations (logged st Groq prompt)) prompt
      with
      | Return r => Some r
      | Raise _ => None
      end
  end.

(** A value that is no dict: a bare [null], boolean, number, string or
    list. *)
Definition is_dict (v : py_value) : bool :=
  match v with
  | PyDict _ => true
  | _ => false
  end.

(** A category method that returns on every query and leaves the history
    alone. *)
Definition returns_always (f : string -> M py_value) : Prop :=
  forall query st, exists v st',
    f query st = (Return v, st')
    /\ search_history st' = search_history st.

(** The entry of a category whose search raised [e]. *)
Definition error_entry (e : py_exception) : py_value :=
  PyDict [("error", PyStr (exc_str e))].

(** ** Abbreviations for the further properties *)

(** What a category method makes of an outcome of [_execute_search]: the
    value, or the [error] record of the exception. *)
Definition entry_of (r : result py_value) : py_value :=
  match r with
  | Return v => v
  | Raise e => error_entry e
  end.

(** The prompt and the search type of each category method, in the order
    of [search_layers]. *)
Definition category_prompts : list ((string -> string) * string) :=
  [ (booking_prompt, "booking_search")
  ; (financial_prompt, "financial_search")
  ; (guest_prompt, "guest_search")
  ; (staff_prompt, "staff_search")
  ; (policies_prompt, "policy_search") ].

(** The enhanced prompts of the five layers for a query. *)
Definition layer_prompts (query : string) : list string :=
  map (fun category : (string -> string) * string =>
         enhanced_prompt_of (fst category query) (snd category))
    category_prompts.

(** A category method as a step: it returns, leaves the history alone and
    appends to the log one invocation of the primary provider and at most
    one of the secondary provider. *)
Definition layer_step (rt : runtime) (f : string -> M py_value) : Prop :=
  forall query st, exists v st' new,
    f query st = (Return v, st')
    /\ search_history st' = search_history st
    /\ invocations st' = (invocations st ++ new)%list
    /\ List.length (calls_to Groq new) = 1%nat
    /\ (List.length (calls_to Gemini new) <= 1)%nat.

(** The summary of a layer result. *)
Definition summary_of (v : py_value) : string :=
  match field v "summary" with
  | Some (PyStr s) => s
  | _ => ""
  end.

(** ** The endpoints of [api_server.py] *)

(** The module creates one search object, [deep_search], at line 28; the
    endpoints below run on its state.  They are [async] functions without
    an [await], so each runs from start to end before the next request. *)

Module SearchRequest.

(** [class SearchRequest(BaseModel)], lines 35-39; a layer is given by its
    name. *)
Record t : Type :=
  { query : string;
    search_layers : option (list string);
    max_results : option Z;
    include_synthesis : option bool }.

End SearchRequest.

(** [class SearchResponse(BaseModel)], lines 41-46; the processing time is
    the difference of two clock readings. *)
Record SearchResponse : Type :=
  { response_status : string;
    response_query : string;
    response_results : py_value;
    response_timestamp : string;
    response_processing_time : Q }.

(** The exceptions inside an endpoint: one raised by the search object,
    the [AttributeError] of a read of an attribute the object does not
    have, and FastAPI's [HTTPException], which is an [Exception] too. *)
Inductive api_exception : Type :=
| SearchError (e : py_exception)
| AttributeError (msg : string)
| HTTPException (status_code : nat) (detail : string).

Inductive api_result (A : Type) : Type :=
| ApiReturn (a : A)
| ApiRaise (e : api_exception).
Arguments ApiReturn {A} a.
Arguments ApiRaise {A} e.

(** What the endpoints take from outside: [os.getenv], the [str] of an
    [HTTPException], which is Starlette's, and the reading of
    [time.time()]. *)
Record api_env : Type :=
  { getenv : string -> option string;
    http_exception_str : nat -> string -> string;
    time_time : state -> Q }.

(** [str(e)] for an exception inside an endpoint. *)
Definition api_exc_str (env : api_env) (e : api_exception) : string :=
  match e with
  | SearchError e' => exc_str e'
  | AttributeError msg => msg
  | HTTPException status_code detail =>
      http_exception_str env status_code detail
  end.

(** The read [deep_search.results]: [HotelKnowledgeDeepSearch.__init__]
    assigns [groq_llm], [gemini_llm] and [search_history], and the class
    defines methods only, none of this name; the read raises. *)
Definition no_results_attribute : api_exception :=
  AttributeError
    "'HotelKnowledgeDeepSearch' object has no attribute 'results'".

Definition deep_search_results : api_result py_dict :=
  ApiRaise no_results_attribute.

(** [d.get(k, '')] where a text is expected. *)
Definition dict_get_str (d : py_dict) (k : string) : string :=
  match dict_get d k with
  | Some (PyStr s) => s
  | _ => ""
  end.

(** The truth value of [os.getenv(name)]: set, and not the empty text. *)
Definition env_is_set (env : api_env) (name : string) : bool :=
  match getenv env name with
  | Some value => negb (String.eqb value "")
  | None => false
  end.

(** [suggestion_prompt] of [search_suggestions], lines 153-169. *)
Definition suggestion_prompt_of (query : string) : string :=
  unlines
    [ ""
    ; "        Based on this hotel management query: " ++ dq ++ query ++ dq
    ; "        "
    ; "        Suggest 5 relevant search queries that would help find comprehensive information."
    ; "        Each suggestion should be specific and actionable."
    ; "        "
    ; "        Format as JSON array:"
    ; "        {"
    ; "            " ++ dq ++ "suggestions" ++ dq ++ ": ["
    ; "                " ++ dq ++ "suggestion_1" ++ dq ++ ","
    ; "                " ++ dq ++ "suggestion_2" ++ dq ++ ","
    ; "                " ++ dq ++ "suggestion_3" ++ dq ++ ","
    ; "                " ++ dq ++ "suggestion_4" ++ dq ++ ","
    ; "                " ++ dq ++ "suggestion_5" ++ dq
    ; "            ]"
    ; "        }"
    ; "        "
    ].

Section Endpoints.

Variable rt : runtime.
Variable env : api_env.

(** [getattr(deep_search, name, None)] for a name that starts with
    [_search_]: the object has five attributes of such a name, the
    category methods. *)
Definition getattr_search_method (name : string)
  : option (string -> M py_value) :=
  match find (fun layer => String.eqb (fst layer) name) (search_layers rt) with
  | Some layer => Some (snd layer)
  | None => None
  end.

(** The loop of lines 91-94 over [search_request.search_layers]. *)
Fixpoint custom_layer_search (query : string) (layers : list string)
  (results : py_dict) : M py_dict :=
  match layers with
  | [] => ret results
  | layer :: layers' =>
      match getattr_search_method ("_search_" ++ layer) with
      | Some layer_func =>
          layer_result <- layer_func query ;;
          custom_layer_search query layers'
            (dict_set results ("custom_" ++ layer) layer_result)
      | None => custom_layer_search query layers' results
      end
  end.

(** [deep_search_endpoint(search_request)], lines 77-111.  The keyword
    arguments of [SearchResponse] are evaluated in order, and the one for
    [timestamp] reads [deep_search.results] before the response is built. *)
Definition deep_search_endpoint (search_request : SearchRequest.t)
  : state -> api_result SearchResponse * state :=
  fun st =>
    (* logger.info(f"Deep search request: {search_request.query}") *)
    let searched :=
      match SearchRequest.search_layers search_request with
      | Some (layer :: layers) =>
          (results <- custom_layer_search
                        (SearchRequest.query search_request)
                        (layer :: layers) [] ;;
           ret (PyDict results)) st
      | Some [] | None =>
          deep_search_hotel_data rt (SearchRequest.query search_request) st
      end in
    let body : api_result SearchResponse * state :=
      match searched with
      | (Raise e, st') => (ApiRaise (SearchError e), st')
      | (Return results, st') =>
          let processing_time :=
            (time_time env st' - time_time env st)%Q in
          match deep_search_results with
          | ApiRaise e => (ApiRaise e, st')
          | ApiReturn attribute =>
              (ApiReturn
                 {| response_status := "success";
                    response_query := SearchRequest.query search_request;
                    response_results := results;
                    response_timestamp :=
                      dict_get_str attribute "search_timestamp";
                    response_processing_time := processing_time |},
               st')
          end
      end in
    match body with
    | (ApiReturn response, st') => (ApiReturn response, st')
    | (ApiRaise e, st') =>
        (* logger.error(f"Deep search failed: {e}") *)
        (ApiRaise (HTTPException 500 (api_exc_str env e)), st')
    end.

(** [layer_functions] of [specific_layer_search], lines 119-125. *)
Definition layer_functions : list (string * (string -> M py_value)) :=
  [ ("booking", _search_booking_data rt)
  ; ("financial", _search_financial_data rt)
  ; ("guest", _search_guest_data rt)
  ; ("staff", _search_staff_data rt)
  ; ("policies", _search_policies_procedures rt) ].

(** [specific_layer_search(layer_name, query)], lines 113-143.  The dict
    of the answer is evaluated in order, and its last value reads
    [deep_search.results]. *)
Definition specific_layer_search (layer_name query : string)
  : state -> api_result py_value * state :=
  fun st =>
    let body : api_result py_value * state :=
      match find (fun entry => String.eqb (fst entry) layer_name)
              layer_functions with
      | None =>
          (ApiRaise
             (HTTPException 400
                ("Invalid layer: " ++ layer_name
                 ++ ". Available: "
                 ++ "['booking', 'financial', 'guest', 'staff', 'policies']")),
           st)
      | Some entry =>
          match snd entry query st with
          | (Raise e, st') => (ApiRaise (SearchError e), st')
          | (Return result, st') =>
              match deep_search_results with
              | ApiRaise e => (ApiRaise e, st')
              | ApiReturn attribute =>
                  (ApiReturn
                     (PyDict
                        [ ("layer", PyStr layer_name)
                        ; ("query", PyStr query)
                        ; ("result", result)
                        ; ("timestamp",
                           PyStr (dict_get_str attribute "search_timestamp"))
                        ]),
                   st')
              end
          end
      end in
    match body with
    | (ApiReturn answer, st') => (ApiReturn answer, st')
    | (ApiRaise e, st') =>
        (ApiRaise (HTTPException 500 (api_exc_str env e)), st')
    end.

(** The fallback of [search_suggestions], lines 179-187. *)
Definition fallback_suggestions (query : string) : py_value :=
  PyDict
    [ ("suggestions", PyList
        [ PyStr (query ++ " booking")
        ; PyStr (query ++ " status")
        ; PyStr (query ++ " history")
        ; PyStr (query ++ " contact")
        ; PyStr (query ++ " procedures") ]) ].

(** [search_suggestions(query)], lines 145-193.  The inner [except:] has
    no class and [json.loads] is all its [try] runs. *)
Definition search_suggestions (query : string) : M py_value :=
  if String.eqb query "" then ret (PyDict [("suggestions", PyList [])])
  else
    try_except
      (let suggestion_prompt := suggestion_prompt_of query in
       response <- invoke rt Groq suggestion_prompt ;;
       try_except
         (parsed <- json_loads_call rt (content response) ;; ret parsed)
         (fun _ => ret (fallback_suggestions query)))
      (fun e =>
         (* logger.error(f"Suggestion generation failed: {e}") *)
         ret (PyDict [("suggestions", PyList [PyStr query])])).

(** [get_analytics()], lines 195-217. *)
Definition get_analytics (st : state) : py_value :=
  PyDict
    [ ("system", PyDict
        [ ("search_count", PyInt (Z.of_nat (analytics_search_count st)))
        ; ("last_search", analytics_last_search st)
        ; ("llm_status", PyDict
            [ ("groq", PyStr (if env_is_set env "GROQ_API_KEY"
                              then "active" else "not_configured"))
            ; ("gemini", PyStr (if env_is_set env "GEMINI_API_KEY"
                                then "active" else "not_configured")) ]) ])
    ; ("performance", PyDict
        [ ("average_processing_time", PyStr "2.3s")
        ; ("success_rate", PyStr "94.2%")
        ; ("most_searched_layers", PyList
            [ PyStr "booking_data"
            ; PyStr "financial_data"
            ; PyStr "guest_data" ]) ]) ].

(** A request to one of the endpoints that use the search object, and
    the state it leaves. *)
Inductive api_request : Type :=
| PostDeepSearch (search_request : SearchRequest.t)
| GetSearchLayer (layer_name query : string)
| GetSearchSuggestions (query : string)
| GetAnalytics.

Definition serve (request : api_request) (st : state) : state :=
  match request with
  | PostDeepSearch search_request =>
      snd (deep_search_endpoint search_request st)
  | GetSearchLayer layer_name query =>
      snd (specific_layer_search layer_name query st)
  | GetSearchSuggestions query => snd (search_suggestions query st)
  | GetAnalytics => st
  end.

Definition serve_all (requests : list api_request) (st : state) : state :=
  fold_left (fun st' request => serve request st') requests st.

End Endpoints.

(** The names [specific_layer_search] accepts: the keys of
    [layer_functions]. *)
Definition api_layer_names : list string :=
  ["booking"; "financial"; "guest"; "staff"; "policies"].

Definition is_api_layer (layer_name : string) : bool :=
  existsb (fun name => String.eqb name layer_name) api_layer_names.

(** The message of the [AttributeError] on [deep_search.results]. *)
Definition no_results_message : string :=
  "'HotelKnowledgeDeepSearch' object has no attribute 'results'".

(** ** The handlers of [hotel_ai_server.py] and [simple_api.py] *)

(** [type(v).__name__] *)
Definition py_type_name (v : py_value) : string :=
  match v with
  | PyNone => "NoneType"
  | PyBool _ => "bool"
  | PyInt _ => "int"
  | PyFloat _ => "float"
  | PyStr _ => "str"
  | PyList _ => "list"
  | PyDict _ => "dict"
  end.

(** [word in s] for two texts. *)
Fixpoint contains (word s : string) : bool :=
  if prefix word s then true
  else
    match s with
    | EmptyString => false
    | String _ s' => contains word s'
    end.

(** [any(word in s for word in words)] *)
Definition any_word_in (words : list string) (s : string) : bool :=
  existsb (fun word => contains word s) words.

(** [d.get(k, default)] *)
Definition dict_get_default (d : py_dict) (k : string) (default : py_value)
  : py_value :=
  match dict_get d k with
  | Some v => v
  | None => default
  end.

(** The exceptions inside a handler: one raised while the request is read
    and decoded, and the [AttributeError] of a method that the type of a
    value does not have. *)
Inductive handler_exception : Type :=
| RequestError (msg : string)
| NoAttribute (type_name attribute : string).

(** [str(e)] *)
Definition handler_exc_str (e : handler_exception) : string :=
  match e with
  | RequestError msg => msg
  | NoAttribute type_name attribute =>
      "'" ++ type_name ++ "' object has no attribute '" ++ attribute ++ "'"
  end.

Inductive outcome (A : Type) : Type :=
| Done (a : A)
| Failed (e : handler_exception).
Arguments Done {A} a.
Arguments Failed {A} e.

(** What a handler takes from outside: [str.lower], the text Python
    formats a value that is no [str] as, and the text of
    [datetime.now().isoformat()]. *)
Record handler_env : Type :=
  { str_lower : string -> string;
    py_repr : py_value -> string;
    now_text : string }.

(** A value inside an f-string: a [str] is itself. *)
Definition py_format (henv : handler_env) (v : py_value) : string :=
  match v with
  | PyStr s => s
  | other => py_repr henv other
  end.

(** The answer of a handler: the status and the data that
    [send_json_response] gets. *)
Definition json_response : Type := (nat * py_value)%type.

Module hotel_ai_server.

Section Handler.

Variable henv : handler_env.

(** [generate_mock_results(self, query)], lines 190-265; [lower] is a
    method of [str] only. *)
Definition generate_mock_results (query : py_value) : outcome py_dict :=
  match query with
  | PyStr query =>
      let query_lower := str_lower henv query in
      let results : py_dict := [] in
      (* Booking layer *)
      let results :=
        if any_word_in ["booking"; "room"; "reserve"; "available"] query_lower
        then
          dict_set results "booking"
            (PyList
               [ PyDict
                   [ ("id", PyStr "booking_001")
                   ; ("room", PyStr "101")
                   ; ("date", PyStr "2026-02-08")
                   ; ("status", PyStr "available")
                   ; ("price", PyInt 2500)
                   ; ("confidence", PyFloat (95 # 100)%Q)
                   ; ("type", PyStr "deluxe") ]
               ; PyDict
                   [ ("id", PyStr "booking_002")
                   ; ("room", PyStr "102")
                   ; ("date", PyStr "2026-02-08")
                   ; ("status", PyStr "available")
                   ; ("price", PyInt 2200)
                   ; ("confidence", PyFloat (88 # 100)%Q)
                   ; ("type", PyStr "standard") ] ])
        else results in
      (* Financial layer *)
      let results :=
        if any_word_in ["financial"; "revenue"; "cost"; "price"] query_lower
        then
          dict_set results "financial"
            (PyList
               [ PyDict
                   [ ("type", PyStr "revenue")
                   ; ("amount", PyInt 45000)
                   ; ("period", PyStr "daily")
                   ; ("confidence", PyFloat (92 # 100)%Q)
                   ; ("date", PyStr "2026-02-07") ] ])
        else results in
      (* Guest layer *)
      let results :=
        if any_word_in ["guest"; "customer"; "profile"] query_lower
        then
          dict_set results "guest"
            (PyList
               [ PyDict
                   [ ("id", PyStr "guest_001")
                   ; ("name", PyStr "John Doe")
                   ; ("status", PyStr "vip")
                   ; ("loyalty_points", PyInt 2500)
                   ; ("confidence", PyFloat (89 # 100)%Q) ] ])
        else results in
      (* Staff layer *)
      let results :=
        if any_word_in ["staff"; "employee"; "schedule"] query_lower
        then
          dict_set results "staff"
            (PyList
               [ PyDict
                   [ ("id", PyStr "staff_001")
                   ; ("name", PyStr "Alice Smith")
                   ; ("department", PyStr "front desk")
                   ; ("shift", PyStr "morning")
                   ; ("confidence", PyFloat (94 # 100)%Q) ] ])
        else results in
      (* Return at least some results *)
      let results :=
        match results with
        | [] =>
            dict_set results "general"
              (PyList
                 [ PyDict
                     [ ("id", PyStr "info_001")
                     ; ("type", PyStr "general_info")
                     ; ("message",
                        PyStr ("General information for query: " ++ query))
                     ; ("confidence", PyFloat (75 # 100)%Q) ] ])
        | _ :: _ => results
        end in
      Done results
  | other => Failed (NoAttribute (py_type_name other) "lower")
  end.

(** The dict comprehension of line 171:
    [{layer: len(data) for layer, data in results.items()
      if isinstance(data, list)}]. *)
Definition results_per_layer (results : py_dict) : py_dict :=
  fold_left
    (fun counts item =>
       match snd item with
       | PyList data =>
           dict_set counts (fst item) (PyInt (Z.of_nat (List.length data)))
       | _ => counts
       end)
    results [].

(** [send_deep_search_response(self)], lines 144-188, from the decoded
    body on: [data] is what lines 147-149 give, the body of the request
    read and decoded, or the exception that one of them raised.  The
    answer is the status and the data passed to [send_json_response]. *)
Definition send_deep_search_response (data : outcome py_value)
  : json_response :=
  let body : outcome py_value :=
    match data with
    | Failed e => Failed e
    | Done (PyDict data) =>
        let query := dict_get_default data "query" (PyStr "") in
        let max_results := dict_get_default data "max_results" (PyInt 20) in
        (* time.sleep(0.1) *)
        match generate_mock_results query with
        | Failed e => Failed e
        | Done results =>
            Done
              (PyDict
                 [ ("status", PyStr "success")
                 ; ("query", query)
                 ; ("timestamp", PyStr (now_text henv))
                 ; ("processing_time", PyFloat (15 # 100)%Q)
                 ; ("results", PyDict results)
                 ; ("synthesis",
                    PyStr ("Found " ++ str_of_nat (List.length results)
                           ++ " relevant results for '"
                           ++ py_format henv query
                           ++ "'. System analysis complete."))
                 ; ("confidence", PyFloat (92 # 100)%Q)
                 ; ("metadata", PyDict
                     [ ("total_layers_searched", PyInt 4)
                     ; ("results_per_layer",
                        PyDict (results_per_layer results))
                     ; ("search_parameters", PyDict
                         [ ("max_results", max_results)
                         ; ("search_type", PyStr "deep_search") ]) ]) ])
        end
    | Done other => Failed (NoAttribute (py_type_name other) "get")
    end in
  match body with
  | Done response => (200, response)
  | Failed e =>
      (500,
       PyDict
         [ ("status", PyStr "error")
         ; ("error", PyStr (handler_exc_str e))
         ; ("timestamp", PyStr (now_text henv))
         ; ("error_type", PyStr "processing_error") ])
  end.

End Handler.

End hotel_ai_server.

Module simple_api.

Section Handler.

Variable henv : handler_env.

(** [send_deep_search_response(self)], lines 105-158, from the decoded
    body on, as in [hotel_ai_server]. *)
Definition send_deep_search_response (data : outcome py_value)
  : json_response :=
  let body : outcome py_value :=
    match data with
    | Failed e => Failed e
    | Done (PyDict data) =>
        let query := dict_get_default data "query" (PyStr "") in
        (* Simulate deep search *)
        Done
          (PyDict
             [ ("status", PyStr "success")
             ; ("query", query)
             ; ("timestamp", PyStr (now_text henv))
             ; ("processing_time", PyFloat (15 # 100)%Q)
             ; ("results", PyDict
                 [ ("booking", PyDict
                     [ ("found", PyBool true)
                     ; ("data", PyList
                         [ PyDict
                             [ ("id", PyStr "booking_001")
                             ; ("room", PyStr "101")
                             ; ("date", PyStr "2026-02-08")
                             ; ("status", PyStr "available")
                             ; ("price", PyInt 2500)
                             ; ("confidence", PyFloat (95 # 100)%Q) ] ]) ])
                 ; ("financial", PyDict
                     [ ("found", PyBool true)
                     ; ("data", PyList
                         [ PyDict
                             [ ("type", PyStr "revenue")
                             ; ("amount", PyInt 45000)
                             ; ("period", PyStr "daily")
                             ; ("confidence", PyFloat (88 # 100)%Q) ] ]) ])
                 ])
             ; ("synthesis",
                PyStr ("Found relevant results for '" ++ py_format henv query
                       ++ "'. Room 101 is available tomorrow for 2,500 THB."))
             ; ("confidence", PyFloat (92 # 100)%Q) ])
    | Done other => Failed (NoAttribute (py_type_name other) "get")
    end in
  match body with
  | Done response => (200, response)
  | Failed e =>
      (500,
       PyDict
         [ ("status", PyStr "error")
         ; ("error", PyStr (handler_exc_str e))
         ; ("timestamp", PyStr (now_text henv)) ])
  end.

End Handler.

End simple_api.


(** The keys [generate_mock_results] writes for a lowercased query, layer
    by layer, and [general] when no layer matched. *)
Definition mock_layer_keys (query_lower : string) : list string :=
  let matched :=
    ((if any_word_in ["booking"; "room"; "reserve"; "available"] query_lower
      then ["booking"] else [])
     ++ (if any_word_in ["financial"; "revenue"; "cost"; "price"] query_lower
         then ["financial"] else [])
     ++ (if any_word_in ["guest"; "customer"; "profile"] query_lower
         then ["guest"] else [])
     ++ (if any_word_in ["staff"; "employee"; "schedule"] query_lower
         then ["staff"] else []))%list in
  match matched with
  | [] => ["general"]
  | _ :: _ => matched
  end.

(** A value that is a list with at least one item. *)
Definition is_nonempty_list (v : py_value) : bool :=
  match v with
  | PyList (_ :: _) => true
  | _ => false
  end.

(** One attempt on a prompt, as the log shows it: the primary provider,
    then the secondary provider on the same prompt when the attempt fell
    back. *)
Definition attempt_log (attempt : string * bool) : list invocation :=
  (Groq, fst attempt)
  :: (if snd attempt then [(Gemini, fst attempt)] else []).

Definition is_raise {A : Type} (r : result A) : bool :=
  match r with
  | Return _ => false
  | Raise _ => true
  end.

(** The attempts of the executor on a list of prompts, one after the
    other from a log on: each falls back exactly when its primary attempt
    fails on the log the attempts before it left. *)
Fixpoint executor_attempts (rt : runtime) (log : list invocation)
  (prompts : list string) : list (string * bool) :=
  match prompts with
  | [] => []
  | prompt :: prompts' =>
      let attempt := (prompt, primary_fails rt log prompt) in
      attempt :: executor_attempts rt (log ++ attempt_log attempt) prompts'
  end.

(** ** Dicts and strings *)

Lemma dict_get_set_same (d : py_dict) (k : string) (v : py_value) :
  dict_get (dict_set d k v) k = Some v.
Proof.
  induction d as [|[k' v'] d IH]; simpl.
  - now rewrite String.eqb_refl.
  - destruct (String.eqb k' k) eqn:E; simpl; rewrite E; [reflexivity | exact IH].
Qed.

Lemma dict_get_set_other (d : py_dict) (k k' : string) (v : py_value) :
  String.eqb k k' = false ->
  dict_get (dict_set d k v) k' = dict_get d k'.
Proof.
  intros Hne; induction d as [|[k0 v0] d IH]; simpl.
  - now rewrite Hne.
  - destruct (String.eqb k0 k) eqn:E; simpl.
    + apply String.eqb_eq in E; subst k0. now rewrite Hne.
    + now rewrite IH.
Qed.

Lemma dict_keys_set (d : py_dict) (k : string) (v : py_value) :
  dict_keys (dict_set d k v) = keys_add (dict_keys d) k.
Proof.
  unfold keys_add, dict_keys; induction d as [|[k' v'] d IH]; simpl;
    [reflexivity|].
  destruct (String.eqb k' k) eqn:E; simpl; [reflexivity|].
  rewrite IH.
  now destruct (existsb _ _).
Qed.

Lemma substring_0_length (s : string) (n : nat) :
  n <= String.length s -> String.length (substring 0 n s) = n.
Proof.
  revert n; induction s as [|c s IH]; intros [|n] H; simpl in *; try lia.
  rewrite IH; lia.
Qed.

Lemma substring_0_prefix (s : string) (n : nat) :
  prefix (substring 0 n s) s = true.
Proof.
  revert n; induction s as [|c s IH]; intros [|n]; simpl; try reflexivity.
  destruct (ascii_dec c c) as [_|Hne]; [apply IH | contradiction].
Qed.

Lemma append_assoc (a b c : string) : (a ++ b) ++ c = a ++ (b ++ c).
Proof. induction a as [|x a IH]; simpl; [reflexivity | now rewrite IH]. Qed.

Lemma calls_to_app (p : provider) (l1 l2 : list invocation) :
  calls_to p (l1 ++ l2) = (calls_to p l1 ++ calls_to p l2)%list.
Proof. unfold calls_to. now rewrite filter_app, map_app. Qed.

(** ** The executor, case by case *)

Section Executor.

Variable rt : runtime.

(** [_execute_search], read off the answers of the providers and of
    [json.loads]. *)
Lemma execute_spec (prompt search_type : string) (st : state) :
  _execute_search rt prompt search_type st
  = execute_outcome rt st (enhanced_prompt_of prompt search_type).
Proof.
  unfold _execute_search, execute_outcome, fallback_outcome,
    result_of_text, error_record.
  unfold try_except, bind, invoke, logged, try_except_JSONDecodeError,
    json_loads_call, both_failed_handler, ret, raise.
  cbv zeta.
  destruct (llm_invoke rt Groq (invocations st) _) as [r|e];
    cbn [invocations search_history content];
    [destruct (json_loads rt (content r)); try reflexivity|];
    (destruct (llm_invoke rt Gemini _ _) as [r2|e2]; [|reflexivity]);
    now destruct (json_loads rt (content r2)).
Qed.

(** Both provider calls raise: the handler reads the unassigned
    [fallback_response]. *)
Lemma execute_both_fail (prompt search_type : string) (st : state)
  (e e2 : py_exception) :
  llm_invoke rt Groq (invocations st) (enhanced_prompt_of prompt search_type)
    = Raise e ->
  llm_invoke rt Gemini
    (invocations (logged st Groq (enhanced_prompt_of prompt search_type)))
    (enhanced_prompt_of prompt search_type) = Raise e2 ->
  _execute_search rt prompt search_type st
    = (Raise (UnboundLocalError "fallback_response"),
       logged (logged st Groq (enhanced_prompt_of prompt search_type))
         Gemini (enhanced_prompt_of prompt search_type)).
Proof.
  intros H1 H2. rewrite execute_spec.
  unfold execute_outcome, fallback_outcome. now rewrite H1, H2.
Qed.


(** Whatever the providers do, the executor leaves the history alone. *)
Lemma execute_keeps_history (prompt search_type : string) (st : state) :
  search_history (snd (_execute_search rt prompt search_type st))
    = search_history st.
Proof.
  rewrite execute_spec. unfold execute_outcome, fallback_outcome.
  destruct (llm_invoke rt Groq _ _) as [r|e];
    [destruct (json_loads rt (content r))|]; reflexivity.
Qed.

(** The first answer, when [json.loads] decodes it, is what the executor
    returns. *)
Lemma execute_first_answer_decoded (prompt search_type : string)
  (st : state) (r : response) (v : py_value) :
  first_answer rt st (enhanced_prompt_of prompt search_type) = Some r ->
  json_loads rt (content r) = Decoded v ->
  fst (_execute_search rt prompt search_type st) = Return v.
Proof.
  unfold first_answer. intros H Hv.
  rewrite execute_spec. unfold execute_outcome, fallback_outcome.
  destruct (llm_invoke rt Groq _ _) as [r1|e] eqn:H1.
  - injection H as ->. now rewrite Hv.
  - destruct (llm_invoke rt Gemini _ _) as [r2|e2] eqn:H2; [|discriminate].
    injection H as ->. unfold result_of_text. now rewrite Hv.
Qed.

(** The executor returns on the answer that decides the call, and raises
    when there is none. *)
Lemma execute_deciding_answer (prompt search_type : string) (st : state) :
  fst (_execute_search rt prompt search_type st)
  = match deciding_answer rt st (enhanced_prompt_of prompt search_type) with
    | Some (_, r) => Return (result_of_text rt (content r))
    | None => Raise (UnboundLocalError "fallback_response")
    end.
Proof.
  rewrite execute_spec.
  unfold execute_outcome, fallback_outcome, deciding_answer, result_of_text.
  destruct (llm_invoke rt Groq _ _) as [r|e];
    [destruct (json_loads rt (content r)) eqn:Hr; cbn [fst];
     try (now rewrite Hr)|];
    now destruct (llm_invoke rt Gemini _ _).
Qed.

End Executor.

(** ** The aggregator *)

Section Aggregator.

Variable rt : runtime.

(** A category method's [try] turns whatever [_execute_search] raises into
    an [error] entry, so the method returns. *)
Lemma guarded_execute_returns (search_prompt search_type : string)
  (st : state) :
  exists v st',
    try_except (_execute_search rt search_prompt search_type)
      (fun e => ret (PyDict [("error", PyStr (exc_str e))])) st
      = (Return v, st')
    /\ search_history st' = search_history st.
Proof.
  pose proof (execute_keeps_history rt search_prompt search_type st) as Hh.
  unfold try_except, ret.
  destruct (_execute_search rt search_prompt search_type st) as [[v|e] st'];
    simpl in Hh; eauto.
Qed.

Lemma search_layers_return :
  Forall (fun layer => returns_always (snd layer)) (search_layers rt).
Proof.
  unfold search_layers.
  repeat constructor; intros query st; simpl;
    apply guarded_execute_returns.
Qed.

(** The loop over the layers returns, writes one key per layer and leaves
    the history alone. *)
Lemma run_layers_returns (query : string)
  (layers : list (string * (string -> M py_value))) :
  Forall (fun layer => returns_always (snd layer)) layers ->
  forall (i : nat) (results : py_dict) (st : state),
  exists results' st',
    run_layers query i layers results st = (Return results', st')
    /\ search_history st' = search_history st
    /\ dict_keys results'
       = fold_left keys_add (layer_keys i (map fst layers))
           (dict_keys results).
Proof.
  induction 1 as [|[name f] layers Hf _ IH]; intros i results st.
  - exists results, st. now simpl.
  - simpl in Hf. destruct (Hf query st) as (v & st1 & Hv & Hh1).
    destruct (IH (S i) (dict_set results (layer_key i name) v) st1)
      as (results' & st' & Hrun & Hh & Hk).
    exists results', st'.
    cbn [run_layers map fst layer_keys fold_left].
    unfold bind at 1, try_except at 1, bind at 1.
    rewrite Hv. cbn [ret]. rewrite Hrun.
    repeat split; [congruence|].
    now rewrite Hk, dict_keys_set.
Qed.

(** The synthesis step, by what the two providers do on its prompt. *)
Lemma synthesize_spec (synthesis_prompt : string) (results : py_dict)
  (st : state) :
  synthesize rt synthesis_prompt results st
  = match llm_invoke rt Groq (invocations st) synthesis_prompt with
    | Return r =>
        (Return (dict_set results "synthesis" (PyStr (content r))),
         logged st Groq synthesis_prompt)
    | Raise e =>
        match llm_invoke rt Gemini
                (invocations (logged st Groq synthesis_prompt))
                synthesis_prompt with
        | Return r2 =>
            (Return (dict_set results "synthesis" (PyStr (content r2))),
             logged (logged st Groq synthesis_prompt) Gemini synthesis_prompt)
        | Raise e2 =>
            (Return
               (dict_set results "synthesis"
                  (PyDict
                     [ ("error",
                        PyStr ("Both LLMs failed: " ++ exc_str e ++ ", "
                               ++ exc_str e2)) ])),
             logged (logged st Groq synthesis_prompt) Gemini synthesis_prompt)
        end
    end.
Proof.
  unfold synthesize, try_except, bind, invoke, logged, ret.
  destruct (llm_invoke rt Groq (invocations st) synthesis_prompt);
    [reflexivity|].
  cbn [invocations search_history].
  now destruct (llm_invoke rt Gemini _ synthesis_prompt).
Qed.

(** The aggregator, step by step: the loop returns the five layer
    entries, the synthesis step adds its entry, and the aggregate is
    returned with the timestamp and the query. *)
Lemma deep_search_steps (query : string) (st : state) :
  exists (layers : py_dict) (st5 : state) (results : py_dict) (st' : state),
    run_layers query 0 (search_layers rt) [] st = (Return layers, st5)
    /\ dict_keys layers = firstn 5 aggregate_keys
    /\ synthesize rt
         (synthesis_prompt_of (json_dumps rt) query (PyDict layers))
         layers st5 = (Return results, st')
    /\ deep_search_hotel_data rt query st
       = (Return
            (PyDict
               (dict_set
                  (dict_set results "search_timestamp"
                     (PyStr (datetime_now_isoformat rt st')))
                  "query" (PyStr query))),
          st')
    /\ search_history st' = search_history st.
Proof.
  destruct (run_layers_returns query (search_layers rt) search_layers_return
              0 [] st) as (layers & st5 & Hrun & Hh5 & Hk).
  exists layers, st5.
  pose proof (synthesize_spec
                (synthesis_prompt_of (json_dumps rt) query (PyDict layers))
                layers st5) as Hs.
  assert (exists results st',
             synthesize rt
               (synthesis_prompt_of (json_dumps rt) query (PyDict layers))
               layers st5 = (Return results, st')
             /\ search_history st' = search_history st5)
    as (results & st' & Hsyn & Hh').
  { rewrite Hs.
    destruct (llm_invoke rt Groq _ _); [eauto|].
    destruct (llm_invoke rt Gemini _ _); eauto. }
  exists results, st'.
  repeat split; try assumption; try congruence.
  unfold deep_search_hotel_data, bind at 1. rewrite Hrun.
  unfold bind at 1. rewrite Hsyn.
  reflexivity.
Qed.

End Aggregator.

(** ** The normalizer's contract *)

(** C5: [_parse_llm_response] is a total function of its argument: on every
    text, the empty one included, the result has status [parsed] and exactly
    one finding, whose data is the text itself, with confidence 0.7,
    relevance score 0.6 and source [llm_response]; the summary is the text
    when it has at most 200 characters, else its first 200 characters
    followed by three dots; and two calls on one text give equal results. *)
Theorem parse_llm_response_contract (text : string) :
  exists finding summary,
    field (_parse_llm_response text) "status" = Some (PyStr "parsed")
    /\ findings (_parse_llm_response text) = [finding]
    /\ field finding "data" = Some (PyStr text)
    /\ field finding "confidence" = Some (PyFloat (7 # 10)%Q)
    /\ field finding "relevance_score" = Some (PyFloat (6 # 10)%Q)
    /\ field finding "source" = Some (PyStr "llm_response")
    /\ field (_parse_llm_response text) "summary" = Some (PyStr summary)
    /\ ((String.length text <= 200)%nat -> summary = text)
    /\ ((200 < String.length text)%nat ->
        summary = substring 0 200 text ++ "..."
        /\ String.length (substring 0 200 text) = 200%nat
        /\ prefix (substring 0 200 text) text = true)
    /\ (forall text', text' = text ->
        _parse_llm_response text' = _parse_llm_response text).
Proof.
  eexists; eexists.
  repeat split; try reflexivity.
  - intros Hle. simpl.
    destruct (200 <? String.length text)%nat eqn:E; [|reflexivity].
    apply Nat.ltb_lt in E; lia.
  - simpl. apply Nat.ltb_lt in H. rewrite H. reflexivity.
  - apply substring_0_length; lia.
  - apply substring_0_prefix.
  - intros text' ->; reflexivity.
Qed.

(** ** The properties of the executor and the aggregator *)

Section Properties.

Variable rt : runtime.

(** C1 (as amended): for every prompt, whenever a provider's answer
    decides the call - the primary provider's, unless the call raised or
    [json.loads] raised on the answer an exception that is no
    [JSONDecodeError], and else the secondary provider's -
    [_execute_search] returns without raising.  The value is the one
    decoded from that answer, as it is, when the answer is JSON; the
    normalizer's layer result, whose status is [parsed], when it is not;
    and, for an answer of the secondary provider on which [json.loads]
    raises another exception, the record of status [error] with that
    exception's message and the answer as [raw_response]. *)
Theorem execute_returns_when_a_provider_answers
  (prompt search_type : string) (st : state) (p : provider) (r : response) :
  deciding_answer rt st (enhanced_prompt_of prompt search_type)
    = Some (p, r) ->
  exists v st',
    _execute_search rt prompt search_type st = (Return v, st')
    /\ match json_loads rt (content r) with
       | Decoded parsed => v = parsed
       | NotJSON _ =>
           v = _parse_llm_response (content r)
           /\ field v "status" = Some (PyStr "parsed")
       | LoadsRaises msg =>
           p = Gemini
           /\ v = PyDict
                    [ ("status", PyStr "error")
                    ; ("error", PyStr ("Search failed: " ++ msg))
                    ; ("raw_response", PyStr (content r)) ]
       end.
Proof.
  intros H.
  pose proof (execute_deciding_answer rt prompt search_type st) as Hrun.
  rewrite H in Hrun.
  destruct (_execute_search rt prompt search_type st) as [res st'].
  simpl in Hrun; subst res.
  do 2 eexists; split; [reflexivity|].
  unfold result_of_text, error_record.
  destruct (json_loads rt (content r)) eqn:Hr;
    [reflexivity | now split | split; [|reflexivity]].
  unfold deciding_answer in H.
  destruct (llm_invoke rt Groq _ _) as [r1|e].
  - destruct (json_loads rt (content r1)) eqn:Hr1;
      try (injection H as _ ->; congruence);
      destruct (llm_invoke rt Gemini _ _); [|discriminate];
      now injection H as <- _.
  - destruct (llm_invoke rt Gemini _ _); [|discriminate].
    now injection H as <- _.
Qed.

(** C2: when both provider calls fail, [_execute_search] does not return
    the [error] record: its handler reads [fallback_response], which was
    never assigned, and [UnboundLocalError] leaves the method.  Where the
    variable is bound, the record the handler builds has status [error],
    the secondary failure's message alone under [error], and the secondary
    text under [raw_response]. *)
Theorem execute_both_providers_fail
  (prompt search_type : string) (st : state) (e e2 : py_exception) :
  llm_invoke rt Groq (invocations st) (enhanced_prompt_of prompt search_type)
    = Raise e ->
  llm_invoke rt Gemini
    (invocations (logged st Groq (enhanced_prompt_of prompt search_type)))
    (enhanced_prompt_of prompt search_type) = Raise e2 ->
  fst (_execute_search rt prompt search_type st)
    = Raise (UnboundLocalError "fallback_response")
  /\ forall (r : response) (st0 : state),
       both_failed_handler (Some r) e e2 st0
       = (Return (PyDict
                    [ ("status", PyStr "error")
                    ; ("error", PyStr ("Search failed: " ++ exc_str e2))
                    ; ("raw_response", PyStr (content r)) ]),
          st0).
Proof.
  intros H1 H2. split.
  - now rewrite (execute_both_fail rt _ _ _ _ _ H1 H2).
  - reflexivity.
Qed.

(** C4 (as amended): [deep_search_hotel_data] never writes
    [search_history]: after every call the log is what it was before, so
    the count that [get_analytics] reads does not change. *)
Theorem deep_search_keeps_history (query : string) (st : state) :
  search_history (snd (deep_search_hotel_data rt query st))
    = search_history st
  /\ analytics_search_count (snd (deep_search_hotel_data rt query st))
     = analytics_search_count st.
Proof.
  destruct (deep_search_steps rt query st)
    as (layers & st5 & results & st' & _ & _ & _ & Hrun & Hh).
  unfold analytics_search_count. rewrite Hrun. simpl. now rewrite Hh.
Qed.


(** C8: in [deep_search_hotel_data], once the five layer entries are
    there, one synthesis call goes to the primary provider, on a prompt
    that embeds the serialized dict of the five entries; when it fails the
    secondary provider is invoked on the same prompt; when both fail the
    [synthesis] entry is an [error] record with both messages.  In every
    case the aggregate is returned. *)
Theorem deep_search_synthesis (query : string) (st : state) :
  exists (layers : py_dict) (st5 : state) (out : py_dict) (st' : state),
    run_layers query 0 (search_layers rt) [] st = (Return layers, st5)
    /\ dict_keys layers = firstn 5 aggregate_keys
    /\ (exists before after,
          synthesis_prompt_of (json_dumps rt) query (PyDict layers)
          = before ++ json_dumps rt (PyDict layers) ++ after)
    /\ deep_search_hotel_data rt query st = (Return (PyDict out), st')
    /\ let synthesis_prompt :=
         synthesis_prompt_of (json_dumps rt) query (PyDict layers) in
       match llm_invoke rt Groq (invocations st5) synthesis_prompt with
       | Return r =>
           invocations st'
           = (invocations st5 ++ [(Groq, synthesis_prompt)])%list
           /\ dict_get out "synthesis" = Some (PyStr (content r))
       | Raise e =>
           invocations st'
           = (invocations st5
                ++ [(Groq, synthesis_prompt); (Gemini, synthesis_prompt)])%list
           /\ match llm_invoke rt Gemini
                      (invocations st5 ++ [(Groq, synthesis_prompt)])%list
                      synthesis_prompt with
              | Return r2 =>
                  dict_get out "synthesis" = Some (PyStr (content r2))
              | Raise e2 =>
                  dict_get out "synthesis"
                  = Some (PyDict
                            [ ("error",
                               PyStr ("Both LLMs failed: " ++ exc_str e
                                      ++ ", " ++ exc_str e2)) ])
              end
       end.
Proof.
  destruct (deep_search_steps rt query st)
    as (layers & st5 & results & st' & Hloop & Hkeys & Hsyn & Hrun & _).
  exists layers, st5. eexists. exists st'.
  split; [exact Hloop|]. split; [exact Hkeys|].
  split.
  { exists (unlines
              [ ""
              ; "        You are a hotel data analyst. Based on the following search results, "
              ; "        provide a comprehensive analysis for the query: "
                ++ dq ++ query ++ dq
              ; "        "
              ; "        Search Results:"
              ; "        " ]).
    exists (nl ++ unlines
              [ "        "
              ; "        Provide:"
              ; "        1. Main findings"
              ; "        2. Specific data points"
              ; "        3. Related information"
              ; "        4. Actionable insights"
              ; "        5. Sources confidence scores"
              ; "        "
              ; "        Format as detailed JSON response."
              ; "        " ]).
    unfold synthesis_prompt_of, unlines. cbn [String.concat].
    rewrite !append_assoc. reflexivity. }
  split; [exact Hrun|].
  cbv zeta. rewrite synthesize_spec in Hsyn.
  assert (Hget : forall results0 v,
             dict_get
               (dict_set
                  (dict_set (dict_set results0 "synthesis" v)
                     "search_timestamp"
                     (PyStr (datetime_now_isoformat rt st')))
                  "query" (PyStr query)) "synthesis" = Some v).
  { intros. rewrite !dict_get_set_other by reflexivity.
    apply dict_get_set_same. }
  destruct (llm_invoke rt Groq (invocations st5) _) as [r|e].
  - injection Hsyn as <- <-. split; [reflexivity | apply Hget].
  - cbn [logged invocations] in Hsyn.
    destruct (llm_invoke rt Gemini _ _) as [r2|e2];
      injection Hsyn as <- <-; (split; [|apply Hget]);
      cbn [logged invocations]; now rewrite <- app_assoc.
Qed.

(** C9: [_execute_search] checks no schema after a successful decode: the
    value decoded from the answer is returned as it is, and when it is no
    dict - a bare [null], number, string or list - the returned value has
    none of the fields of a layer result. *)
Theorem execute_returns_decoded_value_unchecked
  (prompt search_type : string) (st : state) (r : response) (v : py_value) :
  first_answer rt st (enhanced_prompt_of prompt search_type) = Some r ->
  json_loads rt (content r) = Decoded v ->
  fst (_execute_search rt prompt search_type st) = Return v
  /\ (is_dict v = false ->
      forallb (fun k => negb (has_field v k)) layer_result_fields = true).
Proof.
  intros Ha Hv. split.
  - exact (execute_first_answer_decoded rt _ _ _ _ _ Ha Hv).
  - now destruct v.
Qed.

(** C10 (as amended): whenever the primary provider answers and
    [json.loads] returns a value or raises [JSONDecodeError] on the
    answer, the call invokes the primary provider once and the secondary
    provider not at all, and a text that is not JSON goes to the
    normalizer.  When [json.loads] raises another exception on the answer,
    the outer handler takes it and the secondary provider is invoked on
    the same prompt. *)
Theorem primary_answer_never_falls_back
  (prompt search_type : string) (st : state) (r : response) :
  llm_invoke rt Groq (invocations st) (enhanced_prompt_of prompt search_type)
    = Return r ->
  (loads_raises (json_loads rt (content r)) = false ->
   exists v st',
     _execute_search rt prompt search_type st = (Return v, st')
     /\ invocations st'
        = (invocations st
             ++ [(Groq, enhanced_prompt_of prompt search_type)])%list
     /\ calls_to Gemini (invocations st') = calls_to Gemini (invocations st)
     /\ (forall msg, json_loads rt (content r) = NotJSON msg ->
         v = _parse_llm_response (content r)))
  /\ (loads_raises (json_loads rt (content r)) = true ->
      invocations (snd (_execute_search rt prompt search_type st))
      = (invocations st
           ++ [ (Groq, enhanced_prompt_of prompt search_type)
              ; (Gemini, enhanced_prompt_of prompt search_type) ])%list).
Proof.
  intros H1. rewrite execute_spec.
  unfold execute_outcome, fallback_outcome. rewrite H1.
  destruct (json_loads rt (content r)) as [v|msg|msg]; cbn [loads_raises];
    (split; [|intros H; try discriminate]).
  - intros _. do 2 eexists. split; [reflexivity|]. split; [reflexivity|].
    split; [|discriminate].
    cbn [logged invocations]. rewrite calls_to_app. cbn.
    now rewrite app_nil_r.
  - intros _. do 2 eexists. split; [reflexivity|]. split; [reflexivity|].
    split; [|now intros msg' _].
    cbn [logged invocations]. rewrite calls_to_app. cbn.
    now rewrite app_nil_r.
  - discriminate.
  - cbn [snd logged invocations]. now rewrite <- app_assoc.
Qed.

End Properties.

(** ** Two runs that differ in the primary failure only *)

(** C7: when the primary provider call fails and the secondary provider
    answers, the result of [_execute_search] is made from the secondary
    provider's text alone - the value decoded from it, the normalizer's
    result for it, or the error record for it: two runs whose primary
    failures differ in message or kind, with the same secondary answer,
    return the same value and end in the same state. *)
Theorem execute_result_from_secondary_alone
  (rt rt' : runtime) (prompt search_type : string) (st : state)
  (e e' : py_exception) (r : response) :
  json_loads rt' = json_loads rt ->
  llm_invoke rt Groq (invocations st) (enhanced_prompt_of prompt search_type)
    = Raise e ->
  llm_invoke rt' Groq (invocations st) (enhanced_prompt_of prompt search_type)
    = Raise e' ->
  llm_invoke rt Gemini
    (invocations (logged st Groq (enhanced_prompt_of prompt search_type)))
    (enhanced_prompt_of prompt search_type) = Return r ->
  llm_invoke rt' Gemini
    (invocations (logged st Groq (enhanced_prompt_of prompt search_type)))
    (enhanced_prompt_of prompt search_type) = Return r ->
  fst (_execute_search rt prompt search_type st)
    = Return (result_of_text rt (content r))
  /\ _execute_search rt' prompt search_type st
     = _execute_search rt prompt search_type st.
Proof.
  intros Hj H1 H1' H2 H2'.
  rewrite !execute_spec. unfold execute_outcome, fallback_outcome.
  rewrite H1, H1', H2, H2'.
  unfold result_of_text. rewrite Hj. now split.
Qed.

(** ** The aggregate when one category is unreachable *)

(** The keys of every aggregate are the five layer keys, [synthesis],
    [search_timestamp] and [query], whatever the providers do. *)
Lemma deep_search_keys (rt : runtime) (query : string) (st : state) :
  exists out st',
    deep_search_hotel_data rt query st = (Return (PyDict out), st')
    /\ dict_keys out = aggregate_keys.
Proof.
  destruct (deep_search_steps rt query st)
    as (layers & st5 & results & st' & _ & Hkeys & Hsyn & Hrun & _).
  do 2 eexists; split; [exact Hrun|].
  rewrite !dict_keys_set.
  assert (Hr : dict_keys results = keys_add (dict_keys layers) "synthesis").
  { rewrite synthesize_spec in Hsyn.
    destruct (llm_invoke rt Groq _ _);
      [|destruct (llm_invoke rt Gemini _ _)];
      injection Hsyn as <- _; apply dict_keys_set. }
  rewrite Hr, Hkeys. reflexivity.
Qed.

(** A category method whose two provider calls fail returns the message
    of the [UnboundLocalError], under [error], with no status. *)
Lemma guarded_execute_both_fail (rt : runtime)
  (search_prompt search_type : string) (st : state) (e e2 : py_exception) :
  llm_invoke rt Groq (invocations st)
    (enhanced_prompt_of search_prompt search_type) = Raise e ->
  llm_invoke rt Gemini
    (invocations
       (logged st Groq (enhanced_prompt_of search_prompt search_type)))
    (enhanced_prompt_of search_prompt search_type) = Raise e2 ->
  fst (try_except (_execute_search rt search_prompt search_type)
         (fun e => ret (PyDict [("error", PyStr (exc_str e))])) st)
    = Return (error_entry (UnboundLocalError "fallback_response")).
Proof.
  intros H1 H2. unfold try_except.
  now rewrite (execute_both_fail rt _ _ _ _ _ H1 H2).
Qed.

(** The guest search, as one instance of the five category methods. *)
Lemma guest_search_both_fail (rt : runtime) (query : string) (st : state)
  (e e2 : py_exception) :
  llm_invoke rt Groq (invocations st)
    (enhanced_prompt_of (guest_prompt query) "guest_search") = Raise e ->
  llm_invoke rt Gemini
    (invocations
       (logged st Groq
          (enhanced_prompt_of (guest_prompt query) "guest_search")))
    (enhanced_prompt_of (guest_prompt query) "guest_search") = Raise e2 ->
  fst (_search_guest_data rt query st)
    = Return (error_entry (UnboundLocalError "fallback_response")).
Proof. apply guarded_execute_both_fail. Qed.

(** C3: the aggregate has the five layer keys and the synthesis whatever
    the providers do; but with both providers down for the guest layer
    only, the entry of that layer is not a result of status [error]: it is
    the bare record of the [UnboundLocalError] message, with no status.
    The four other entries are the layer results of their answers. *)
Theorem deep_search_guest_layer_down :
  exists out st',
    deep_search_hotel_data guest_layer_down_runtime
      "booking room 101 tomorrow" init_state = (Return (PyDict out), st')
    /\ dict_keys out = aggregate_keys
    /\ dict_get out "layer_3__search_guest_data"
       = Some (error_entry (UnboundLocalError "fallback_response"))
    /\ has_field (error_entry (UnboundLocalError "fallback_response"))
         "status" = false
    /\ dict_get out "layer_1__search_booking_data"
       = Some (_parse_llm_response "Room 101 is free tomorrow.")
    /\ dict_get out "layer_2__search_financial_data"
       = Some (_parse_llm_response "No open invoices.")
    /\ dict_get out "layer_4__search_staff_data"
       = Some (_parse_llm_response "Front desk: two on shift.")
    /\ dict_get out "layer_5__search_policies_procedures"
       = Some (_parse_llm_response "See SOP-7.")
    /\ dict_get out "synthesis" = Some (PyStr "Room 101 can be booked.").
Proof.
  do 2 eexists. split; [vm_compute; reflexivity|].
  repeat split; vm_compute; reflexivity.
Qed.

(** ** Examples and counterexamples *)

(** The scenario of the specification: the primary provider times out
    and the secondary one answers [hello], which is not JSON. *)
Example execute_test_scenario :
  fst (_execute_search
         (example_runtime [fails "timeout"; answers "hello"])
         "test" "booking_search" init_state)
  = Return (_parse_llm_response "hello")
  /\ field (_parse_llm_response "hello") "status" = Some (PyStr "parsed")
  /\ field (_parse_llm_response "hello") "summary" = Some (PyStr "hello").
Proof. repeat split; vm_compute; reflexivity. Qed.

(** C1, as stated, fails: the primary provider answers [5], which is
    JSON, and [_execute_search] returns the number 5, which has no status. *)
Lemma execute_result_without_status :
  fst (_execute_search (example_runtime [answers "5"])
         "test" "booking_search" init_state) = Return (PyInt 5)
  /\ field (PyInt 5) "status" = None.
Proof. split; vm_compute; reflexivity. Qed.

(** C10, as stated, fails: the primary provider answers, with an integer
    of 4301 digits; [json.loads] raises [ValueError] on it, and the
    secondary provider is invoked on the same prompt and decides the
    call. *)
Lemma primary_answer_falls_back_on_long_integer :
  llm_invoke long_integer_runtime Groq (invocations init_state)
    (enhanced_prompt_of "test" "booking_search")
  = Return {| content := long_integer_text |}
  /\ calls_to Gemini
       (invocations
          (snd (_execute_search long_integer_runtime
                  "test" "booking_search" init_state)))
     = [enhanced_prompt_of "test" "booking_search"]
  /\ fst (_execute_search long_integer_runtime
            "test" "booking_search" init_state)
     = Return (_parse_llm_response "hello").
Proof. repeat split; vm_compute; reflexivity. Qed.

(** C4, as stated, fails: after a deep search from the initial state the
    history is still empty, not one longer. *)
Lemma deep_search_history_not_extended :
  search_history
    (snd (deep_search_hotel_data all_answered_runtime
            "booking room 101 tomorrow" init_state)) = []
  /\ Nat.eqb
       (analytics_search_count
          (snd (deep_search_hotel_data all_answered_runtime
                  "booking room 101 tomorrow" init_state)))
       (S (analytics_search_count init_state)) = false.
Proof. split; vm_compute; reflexivity. Qed.

(** ** The theorems at concrete runs *)

(** C1 at the run where the primary provider times out and the secondary
    one answers [hello]. *)
Lemma execute_returns_when_a_provider_answers_witness :
  deciding_answer (example_runtime [fails "timeout"; answers "hello"])
    init_state (enhanced_prompt_of "test" "booking_search")
    = Some (Gemini, {| content := "hello" |})
  /\ exists v st',
       _execute_search (example_runtime [fails "timeout"; answers "hello"])
         "test" "booking_search" init_state = (Return v, st')
       /\ v = _parse_llm_response "hello"
       /\ field v "status" = Some (PyStr "parsed").
Proof.
  split; [reflexivity|].
  exact (execute_returns_when_a_provider_answers
           (example_runtime [fails "timeout"; answers "hello"])
           "test" "booking_search" init_state Gemini {| content := "hello" |}
           eq_refl).
Defined.

(** C2 at the run where both providers are down. *)
Lemma execute_both_providers_fail_witness :
  fst (_execute_search
         (example_runtime [fails "timeout"; fails "service unavailable"])
         "test" "booking_search" init_state)
  = Raise (UnboundLocalError "fallback_response").
Proof.
  exact (proj1 (execute_both_providers_fail
                  (example_runtime
                     [fails "timeout"; fails "service unavailable"])
                  "test" "booking_search" init_state
                  (PyException "timeout")
                  (PyException "service unavailable")
                  eq_refl eq_refl)).
Defined.


(** C7 at two runs whose primary failures differ in kind and in message,
    each followed by the answer [hello]. *)
Lemma execute_result_from_secondary_alone_witness :
  fst (_execute_search
         (example_runtime [fails "timeout"; answers "hello"])
         "test" "booking_search" init_state)
  = Return
      (result_of_text (example_runtime [fails "timeout"; answers "hello"])
         "hello")
  /\ _execute_search
       (example_runtime [Raise (JSONDecodeError "401"); answers "hello"])
       "test" "booking_search" init_state
     = _execute_search
         (example_runtime [fails "timeout"; answers "hello"])
         "test" "booking_search" init_state.
Proof.
  exact (execute_result_from_secondary_alone
           (example_runtime [fails "timeout"; answers "hello"])
           (example_runtime [Raise (JSONDecodeError "401"); answers "hello"])
           "test" "booking_search" init_state
           (PyException "timeout") (JSONDecodeError "401")
           {| content := "hello" |}
           eq_refl eq_refl eq_refl eq_refl eq_refl).
Defined.

(** C9 at the run where the primary provider fails and the secondary one
    answers the JSON text [5]. *)
Lemma execute_returns_decoded_value_unchecked_witness :
  fst (_execute_search (example_runtime [fails "timeout"; answers "5"])
         "test" "booking_search" init_state) = Return (PyInt 5)
  /\ forallb (fun k => negb (has_field (PyInt 5) k)) layer_result_fields
     = true.
Proof.
  destruct (execute_returns_decoded_value_unchecked
              (example_runtime [fails "timeout"; answers "5"])
              "test" "booking_search" init_state {| content := "5" |}
              (PyInt 5) eq_refl eq_refl) as [Hrun Hfields].
  split; [exact Hrun | exact (Hfields eq_refl)].
Defined.

(** C10 at the run where the primary provider answers [hello], which is
    not JSON. *)
Lemma primary_answer_never_falls_back_witness :
  exists v st',
    _execute_search (example_runtime [answers "hello"])
      "test" "booking_search" init_state = (Return v, st')
    /\ invocations st'
       = (invocations init_state
            ++ [(Groq, enhanced_prompt_of "test" "booking_search")])%list
    /\ calls_to Gemini (invocations st')
       = calls_to Gemini (invocations init_state)
    /\ (forall msg,
          json_loads (example_runtime [answers "hello"])
            (content {| content := "hello" |}) = NotJSON msg ->
          v = _parse_llm_response (content {| content := "hello" |})).
Proof.
  exact (proj1 (primary_answer_never_falls_back
                  (example_runtime [answers "hello"])
                  "test" "booking_search" init_state
                  {| content := "hello" |} eq_refl)
               eq_refl).
Defined.

(** ** Further properties of the executor and the aggregator *)

Lemma append_length (a b : string) :
  String.length (a ++ b) = (String.length a + String.length b)%nat.
Proof. induction a as [|c a IH]; simpl; [reflexivity | now rewrite IH]. Qed.

Lemma calls_to_length_split (log : list invocation) :
  List.length log
  = (List.length (calls_to Groq log) + List.length (calls_to Gemini log))%nat.
Proof.
  unfold calls_to.
  induction log as [|[[|] prompt] log IH]; simpl; [reflexivity| |];
    rewrite IH; lia.
Qed.

Section Steps.

Variable rt : runtime.

(** The log after [_execute_search]: the primary provider once, then the
    secondary provider once when the primary attempt failed. *)
Lemma execute_log (prompt search_type : string) (st : state) :
  invocations (snd (_execute_search rt prompt search_type st))
  = (invocations st
       ++ attempt_log
            (enhanced_prompt_of prompt search_type,
             primary_fails rt (invocations st)
               (enhanced_prompt_of prompt search_type)))%list.
Proof.
  rewrite execute_spec.
  unfold execute_outcome, fallback_outcome, primary_fails, attempt_log.
  cbn [fst snd].
  destruct (llm_invoke rt Groq _ _) as [r|e];
    [destruct (json_loads rt (content r))|];
    cbn [snd logged invocations]; try reflexivity;
    now rewrite <- app_assoc.
Qed.

(** A category method's [try], in one equation. *)
Lemma guarded_execute_spec (search_prompt search_type : string) (st : state) :
  try_except (_execute_search rt search_prompt search_type)
    (fun e => ret (PyDict [("error", PyStr (exc_str e))])) st
  = (Return (entry_of (fst (_execute_search rt search_prompt search_type st))),
     snd (_execute_search rt search_prompt search_type st)).
Proof.
  unfold try_except, ret, entry_of, error_entry.
  now destruct (_execute_search rt search_prompt search_type st) as [[v|e] st'].
Qed.

Lemma guarded_execute_step (search_prompt search_type : string) (st : state) :
  exists v st' new,
    try_except (_execute_search rt search_prompt search_type)
      (fun e => ret (PyDict [("error", PyStr (exc_str e))])) st
    = (Return v, st')
    /\ search_history st' = search_history st
    /\ invocations st' = (invocations st ++ new)%list
    /\ List.length (calls_to Groq new) = 1%nat
    /\ (List.length (calls_to Gemini new) <= 1)%nat.
Proof.
  rewrite guarded_execute_spec.
  do 3 eexists. split; [reflexivity|].
  split; [apply execute_keeps_history|].
  split; [apply execute_log|].
  unfold attempt_log; cbn [fst snd].
  destruct (primary_fails rt _ _); cbn; split; lia.
Qed.

(** A category method's [try], by the answers of the providers. *)
Lemma guarded_execute_category (search_prompt search_type : string)
  (st : state) :
  let outcome :=
    execute_outcome rt st (enhanced_prompt_of search_prompt search_type) in
  try_except (_execute_search rt search_prompt search_type)
    (fun e => ret (PyDict [("error", PyStr (exc_str e))])) st
  = (Return (entry_of (fst outcome)), snd outcome)
  /\ search_history (snd outcome) = search_history st
  /\ exists new,
       invocations (snd outcome) = (invocations st ++ new)%list
       /\ List.length (calls_to Groq new) = 1%nat
       /\ (List.length (calls_to Gemini new) <= 1)%nat.
Proof.
  cbv zeta.
  destruct (guarded_execute_step search_prompt search_type st)
    as (v & st' & new & Hv & Hh & Hl & Hg & Hm).
  rewrite guarded_execute_spec in *. rewrite execute_spec in *.
  injection Hv as _ <-.
  split; [reflexivity|]. split; [exact Hh|]. eauto.
Qed.

Lemma search_layers_step :
  Forall (fun layer => layer_step rt (snd layer)) (search_layers rt).
Proof.
  unfold search_layers.
  repeat constructor; intros query st; simpl; apply guarded_execute_step.
Qed.

(** One round of the loop, for a layer that returns. *)
Lemma run_layers_cons (query : string) (i : nat) (name : string)
  (f : string -> M py_value)
  (layers : list (string * (string -> M py_value))) (results : py_dict)
  (st st1 : state) (v : py_value) :
  f query st = (Return v, st1) ->
  run_layers query i ((name, f) :: layers) results st
  = run_layers query (S i) layers (dict_set results (layer_key i name) v) st1.
Proof.
  intros H. cbn [run_layers].
  unfold bind at 1, try_except at 1, bind at 1.
  now rewrite H.
Qed.

(** The loop over the layers, with its log. *)
Lemma run_layers_spec (query : string)
  (layers : list (string * (string -> M py_value))) :
  Forall (fun layer => layer_step rt (snd layer)) layers ->
  forall (i : nat) (results : py_dict) (st : state),
  exists results' st' new,
    run_layers query i layers results st = (Return results', st')
    /\ invocations st' = (invocations st ++ new)%list
    /\ List.length (calls_to Groq new) = List.length layers
    /\ (List.length (calls_to Gemini new) <= List.length layers)%nat.
Proof.
  induction 1 as [|[name f] layers Hf _ IH]; intros i results st.
  - exists results, st, []. cbn. rewrite app_nil_r. repeat split; auto.
  - simpl in Hf.
    destruct (Hf query st) as (v & st1 & new1 & Hv & _ & Hl1 & Hg1 & Hm1).
    destruct (IH (S i) (dict_set results (layer_key i name) v) st1)
      as (results' & st' & new2 & Hrun & Hl2 & Hg2 & Hm2).
    exists results', st', (new1 ++ new2)%list.
    rewrite (run_layers_cons _ _ _ _ _ _ _ _ _ Hv), Hrun.
    split; [reflexivity|].
    split; [rewrite Hl2, Hl1; now rewrite app_assoc|].
    rewrite !calls_to_app, !length_app. cbn [List.length].
    split; lia.
Qed.

(** The aggregator, with the log of the whole call. *)
Lemma deep_search_trace (query : string) (st : state) :
  exists (layers : py_dict) (synthesis : py_value) (st' : state)
         (new : list invocation),
    deep_search_hotel_data rt query st
    = (Return
         (PyDict
            (dict_set
               (dict_set (dict_set layers "synthesis" synthesis)
                  "search_timestamp"
                  (PyStr (datetime_now_isoformat rt st')))
               "query" (PyStr query))),
       st')
    /\ invocations st' = (invocations st ++ new)%list
    /\ List.length (calls_to Groq new) = 6%nat
    /\ (List.length (calls_to Gemini new) <= 6)%nat
    /\ dict_keys layers = firstn 5 aggregate_keys
    /\ exists st5,
         run_layers query 0 (search_layers rt) [] st = (Return layers, st5).
Proof.
  destruct (deep_search_steps rt query st)
    as (layers & st5 & results & st' & Hloop & Hkeys & Hsyn & Hrun & _).
  destruct (run_layers_spec query (search_layers rt) search_layers_step
              0 [] st)
    as (layers0 & st50 & new5 & Hloop' & Hl5 & Hg5 & Hm5).
  rewrite Hloop in Hloop'. injection Hloop' as <- <-.
  cbn [List.length search_layers] in Hg5, Hm5.
  rewrite synthesize_spec in Hsyn.
  exists layers.
  destruct (llm_invoke rt Groq (invocations st5) _) as [r|e].
  - injection Hsyn as <- <-.
    exists (PyStr (content r)), (logged st5 Groq
              (synthesis_prompt_of (json_dumps rt) query (PyDict layers))),
      (new5 ++ [(Groq,
              synthesis_prompt_of (json_dumps rt) query (PyDict layers))])%list.
    split; [exact Hrun|].
    split; [cbn [logged invocations]; rewrite Hl5; now rewrite app_assoc|].
    rewrite !calls_to_app, !length_app. cbn.
    repeat split; try lia; try assumption. eauto.
  - cbn [logged invocations] in Hsyn.
    destruct (llm_invoke rt Gemini _ _) as [r2|e2];
      injection Hsyn as <- <-;
      eexists; eexists;
      exists (new5 ++ [(Groq,
              synthesis_prompt_of (json_dumps rt) query (PyDict layers));
             (Gemini,
              synthesis_prompt_of (json_dumps rt) query (PyDict layers))])%list;
      (split; [exact Hrun|]);
      (split; [cbn [logged invocations]; rewrite Hl5;
               rewrite <- !app_assoc; reflexivity|]);
      rewrite !calls_to_app, !length_app; cbn;
      repeat split; try lia; try assumption; eauto.
Qed.

(** The five layers in their order, each on the state the one before it
    left, and the dict the loop returns. *)
Lemma run_layers_in_order (query : string) (st : state) :
  exists v1 st1 v2 st2 v3 st3 v4 st4 v5 st5,
    _search_booking_data rt query st = (Return v1, st1)
    /\ _search_financial_data rt query st1 = (Return v2, st2)
    /\ _search_guest_data rt query st2 = (Return v3, st3)
    /\ _search_staff_data rt query st3 = (Return v4, st4)
    /\ _search_policies_procedures rt query st4 = (Return v5, st5)
    /\ run_layers query 0 (search_layers rt) [] st
       = (Return
            [ ("layer_1__search_booking_data", v1)
            ; ("layer_2__search_financial_data", v2)
            ; ("layer_3__search_guest_data", v3)
            ; ("layer_4__search_staff_data", v4)
            ; ("layer_5__search_policies_procedures", v5) ],
          st5).
Proof.
  destruct (guarded_execute_step (booking_prompt query) "booking_search" st)
    as (v1 & st1 & ? & H1 & _).
  destruct (guarded_execute_step (financial_prompt query) "financial_search"
              st1) as (v2 & st2 & ? & H2 & _).
  destruct (guarded_execute_step (guest_prompt query) "guest_search" st2)
    as (v3 & st3 & ? & H3 & _).
  destruct (guarded_execute_step (staff_prompt query) "staff_search" st3)
    as (v4 & st4 & ? & H4 & _).
  destruct (guarded_execute_step (policies_prompt query) "policy_search" st4)
    as (v5 & st5 & ? & H5 & _).
  exists v1, st1, v2, st2, v3, st3, v4, st4, v5, st5.
  repeat (split; [assumption|]).
  unfold search_layers.
  rewrite (run_layers_cons _ _ _ _ _ _ _ _ _ H1).
  rewrite (run_layers_cons _ _ _ _ _ _ _ _ _ H2).
  rewrite (run_layers_cons _ _ _ _ _ _ _ _ _ H3).
  rewrite (run_layers_cons _ _ _ _ _ _ _ _ _ H4).
  rewrite (run_layers_cons _ _ _ _ _ _ _ _ _ H5).
  reflexivity.
Qed.

End Steps.

Section FurtherProperties.

Variable rt : runtime.

(** X1: one call of [_execute_search] appends to the log exactly one
    invocation of the primary provider, and one of the secondary provider
    exactly when the primary attempt failed - the primary call raised, or
    [json.loads] raised on its answer an exception that is no
    [JSONDecodeError] - both on the same enhanced prompt; it never
    retries, so the log grows by one or two entries. *)
Theorem execute_invocation_discipline
  (prompt search_type : string) (st : state) :
  exists new,
    invocations (snd (_execute_search rt prompt search_type st))
    = (invocations st ++ new)%list
    /\ calls_to Groq new = [enhanced_prompt_of prompt search_type]
    /\ calls_to Gemini new
       = (if primary_fails rt (invocations st)
               (enhanced_prompt_of prompt search_type)
          then [enhanced_prompt_of prompt search_type]
          else [])
    /\ (1 <= List.length new <= 2)%nat.
Proof.
  eexists. split; [apply execute_log|].
  unfold attempt_log; cbn [fst snd].
  destruct (primary_fails rt _ _); cbn; repeat split; lia.
Qed.

(** X2: the only exception that leaves [_execute_search] is the
    [UnboundLocalError] on [fallback_response], and it leaves only when
    the primary attempt failed and the call to the secondary provider
    raised: no exception of a provider or of [json.loads] ever escapes. *)
Theorem execute_raises_only_unbound_local
  (prompt search_type : string) (st : state) (e : py_exception) :
  fst (_execute_search rt prompt search_type st) = Raise e ->
  e = UnboundLocalError "fallback_response"
  /\ primary_fails rt (invocations st)
       (enhanced_prompt_of prompt search_type) = true
  /\ is_raise
       (llm_invoke rt Gemini
          (invocations
             (logged st Groq (enhanced_prompt_of prompt search_type)))
          (enhanced_prompt_of prompt search_type)) = true.
Proof.
  rewrite execute_spec.
  unfold execute_outcome, fallback_outcome, primary_fails.
  destruct (llm_invoke rt Groq _ _) as [r|e1];
    [destruct (json_loads rt (content r)); try discriminate|];
    (destruct (llm_invoke rt Gemini _ _); [discriminate|]);
    cbn [fst]; intros H; injection H as <-; now repeat split.
Qed.

(** X3: none of the five category methods of [search_layers] ever raises.
    On every query and state each returns exactly what [_execute_search]
    makes of its own enhanced prompt - the decoded value, the normalizer's
    result or the error record of the answer that decides the call - or,
    when that raises, the [error] record of the exception; it leaves the
    history alone and invokes the primary provider once and the secondary
    provider at most once. *)
Theorem category_methods_never_raise :
  Forall2
    (fun (layer : string * (string -> M py_value))
         (category : (string -> string) * string) =>
       forall query st,
         let outcome :=
           execute_outcome rt st
             (enhanced_prompt_of (fst category query) (snd category)) in
         snd layer query st = (Return (entry_of (fst outcome)), snd outcome)
         /\ search_history (snd outcome) = search_history st
         /\ exists new,
              invocations (snd outcome) = (invocations st ++ new)%list
              /\ List.length (calls_to Groq new) = 1%nat
              /\ (List.length (calls_to Gemini new) <= 1)%nat)
    (search_layers rt) category_prompts.
Proof.
  unfold search_layers, category_prompts.
  repeat (apply Forall2_cons;
          [intros query st; apply guarded_execute_category|]).
  apply Forall2_nil.
Qed.

(** X4: whatever the providers do, [deep_search_hotel_data] returns a dict
    with exactly the five layer keys, [synthesis], [search_timestamp] and
    [query], in this order; its [query] is the query it was given and its
    [search_timestamp] the time read after the synthesis. *)
Theorem deep_search_aggregate_shape (query : string) (st : state) :
  exists out st',
    deep_search_hotel_data rt query st = (Return (PyDict out), st')
    /\ dict_keys out = aggregate_keys
    /\ dict_get out "query" = Some (PyStr query)
    /\ dict_get out "search_timestamp"
       = Some (PyStr (datetime_now_isoformat rt st')).
Proof.
  destruct (deep_search_trace rt query st)
    as (layers & synthesis & st' & new & Hrun & _ & _ & _ & Hkeys & _).
  do 2 eexists. split; [exact Hrun|].
  split; [|split].
  - rewrite !dict_keys_set, Hkeys. reflexivity.
  - apply dict_get_set_same.
  - rewrite dict_get_set_other by reflexivity. apply dict_get_set_same.
Qed.

(** X5: one deep search invokes the primary provider exactly six times
    (five layers and the synthesis) and the secondary provider at most six
    times; it only appends to the log, between six and twelve entries. *)
Theorem deep_search_invocation_bounds (query : string) (st : state) :
  exists new,
    invocations (snd (deep_search_hotel_data rt query st))
    = (invocations st ++ new)%list
    /\ List.length (calls_to Groq new) = 6%nat
    /\ (List.length (calls_to Gemini new) <= 6)%nat
    /\ (6 <= List.length new <= 12)%nat.
Proof.
  destruct (deep_search_trace rt query st)
    as (layers & synthesis & st' & new & Hrun & Hlog & Hg & Hm & _).
  exists new. rewrite Hrun. cbn [snd].
  rewrite (calls_to_length_split new).
  repeat split; try assumption; lia.
Qed.

(** X6: the five layers run in their order, each on the state the one
    before it left, and the entry of each layer in the aggregate is
    exactly the value its category method returned: no layer's outcome
    stops the loop or changes the entry of another layer. *)
Theorem deep_search_layer_entries (query : string) (st : state) :
  exists v1 st1 v2 st2 v3 st3 v4 st4 v5 st5 out st',
    _search_booking_data rt query st = (Return v1, st1)
    /\ _search_financial_data rt query st1 = (Return v2, st2)
    /\ _search_guest_data rt query st2 = (Return v3, st3)
    /\ _search_staff_data rt query st3 = (Return v4, st4)
    /\ _search_policies_procedures rt query st4 = (Return v5, st5)
    /\ deep_search_hotel_data rt query st = (Return (PyDict out), st')
    /\ dict_get out "layer_1__search_booking_data" = Some v1
    /\ dict_get out "layer_2__search_financial_data" = Some v2
    /\ dict_get out "layer_3__search_guest_data" = Some v3
    /\ dict_get out "layer_4__search_staff_data" = Some v4
    /\ dict_get out "layer_5__search_policies_procedures" = Some v5.
Proof.
  destruct (run_layers_in_order rt query st)
    as (v1 & st1 & v2 & st2 & v3 & st3 & v4 & st4 & v5 & st5
        & H1 & H2 & H3 & H4 & H5 & Hloop).
  destruct (deep_search_trace rt query st)
    as (layers & synthesis & st' & new & Hrun & _ & _ & _ & _
        & st5' & Hloop').
  rewrite Hloop in Hloop'. injection Hloop' as <- _.
  exists v1, st1, v2, st2, v3, st3, v4, st4, v5, st5.
  do 2 eexists.
  repeat (split; [eassumption|]).
  repeat split; reflexivity.
Qed.

End FurtherProperties.

Lemma summary_of_parse (text : string) :
  summary_of (_parse_llm_response text)
  = if (200 <? String.length text)%nat
    then py_slice_to 200 text ++ "..."
    else text.
Proof. reflexivity. Qed.

(** X7: the normalizer's result is a complete layer result with a bounded
    summary: it has all five fields, its [total_matches] is the number of
    its findings, and its summary has at most 203 characters - the length
    of the text when that is at most 200, and 203 otherwise. *)
Theorem parse_llm_response_bounds (text : string) :
  forallb (has_field (_parse_llm_response text)) layer_result_fields = true
  /\ field (_parse_llm_response text) "total_matches"
     = Some (PyInt (Z.of_nat (List.length
                                (findings (_parse_llm_response text)))))
  /\ String.length (summary_of (_parse_llm_response text))
     = (if (200 <? String.length text)%nat then 203
        else String.length text)%nat
  /\ (String.length (summary_of (_parse_llm_response text)) <= 203)%nat.
Proof.
  assert (Hlen : String.length (summary_of (_parse_llm_response text))
                 = (if (200 <? String.length text)%nat then 203
                    else String.length text)%nat).
  { rewrite summary_of_parse.
    destruct (200 <? String.length text)%nat eqn:E; [|reflexivity].
    apply Nat.ltb_lt in E.
    unfold py_slice_to. rewrite append_length, substring_0_length by lia.
    reflexivity. }
  repeat split; try reflexivity; try exact Hlen.
  rewrite Hlen.
  destruct (200 <? String.length text)%nat eqn:E; [lia|].
  apply Nat.ltb_ge in E. lia.
Qed.

(** X2 at the run where both providers are down. *)
Lemma execute_raises_only_unbound_local_witness :
  UnboundLocalError "fallback_response" = UnboundLocalError "fallback_response"
  /\ primary_fails
       (example_runtime [fails "timeout"; fails "service unavailable"])
       (invocations init_state)
       (enhanced_prompt_of "test" "booking_search") = true
  /\ is_raise
       (llm_invoke
          (example_runtime [fails "timeout"; fails "service unavailable"])
          Gemini
          (invocations
             (logged init_state Groq
                (enhanced_prompt_of "test" "booking_search")))
          (enhanced_prompt_of "test" "booking_search")) = true.
Proof.
  exact (execute_raises_only_unbound_local
           (example_runtime [fails "timeout"; fails "service unavailable"])
           "test" "booking_search" init_state
           (UnboundLocalError "fallback_response") eq_refl).
Defined.

(** ** The endpoints of [api_server.py] *)

Lemma deep_search_history (rt : runtime) (query : string) (st : state) :
  search_history (snd (deep_search_hotel_data rt query st))
  = search_history st.
Proof.
  destruct (deep_search_steps rt query st)
    as (layers & st5 & results & st' & _ & _ & _ & Hrun & Hh).
  now rewrite Hrun.
Qed.

Section EndpointProperties.

Variable rt : runtime.
Variable env : api_env.

Lemma getattr_search_method_step (name : string)
  (f : string -> M py_value) :
  getattr_search_method rt name = Some f -> layer_step rt f.
Proof.
  unfold getattr_search_method.
  destruct (find _ (search_layers rt)) as [layer|] eqn:Hfind; [|discriminate].
  intros H; injection H as <-.
  apply find_some in Hfind. destruct Hfind as [Hin _].
  exact (proj1 (Forall_forall _ _) (search_layers_step rt) layer Hin).
Qed.

(** The loop over the requested layers returns and only appends to the
    log. *)
Lemma custom_layer_search_returns (query : string) (layers : list string) :
  forall (results : py_dict) (st : state),
  exists results' st' new,
    custom_layer_search rt query layers results st = (Return results', st')
    /\ search_history st' = search_history st
    /\ invocations st' = (invocations st ++ new)%list.
Proof.
  induction layers as [|layer layers IH]; intros results st.
  - exists results, st, []. cbn. now rewrite app_nil_r.
  - cbn [custom_layer_search].
    destruct (getattr_search_method rt ("_search_" ++ layer))
      as [layer_func|] eqn:Hget.
    + destruct (getattr_search_method_step _ _ Hget query st)
        as (v & st1 & new1 & Hv & Hh1 & Hl1 & _).
      destruct (IH (dict_set results ("custom_" ++ layer) v) st1)
        as (results' & st' & new2 & Hrun & Hh & Hl).
      exists results', st', (new1 ++ new2)%list.
      unfold bind. rewrite Hv, Hrun.
      repeat split; [congruence|].
      rewrite Hl, Hl1. now rewrite app_assoc.
    + apply IH.
Qed.

Lemma layer_functions_step :
  Forall (fun entry => layer_step rt (snd entry)) (layer_functions rt).
Proof.
  unfold layer_functions.
  repeat constructor; intros query st; simpl; apply guarded_execute_step.
Qed.

Lemma find_layer_function (layer_name : string) :
  match find (fun entry => String.eqb (fst entry) layer_name)
          (layer_functions rt) with
  | Some entry => is_api_layer layer_name = true /\ layer_step rt (snd entry)
  | None => is_api_layer layer_name = false
  end.
Proof.
  destruct (find _ (layer_functions rt)) as [entry|] eqn:Hfind.
  - pose proof (find_some _ _ Hfind) as [Hin Heq].
    split.
    + unfold is_api_layer. apply existsb_exists. exists (fst entry).
      split; [|exact Heq].
      unfold layer_functions in Hin. cbn in Hin.
      destruct Hin as [<-|[<-|[<-|[<-|[<-|[]]]]]]; cbn; tauto.
    + exact (proj1 (Forall_forall _ _) layer_functions_step entry Hin).
  - unfold layer_functions in Hfind. cbn [find fst] in Hfind.
    unfold is_api_layer, api_layer_names. cbn [existsb].
    repeat match type of Hfind with
           | (if ?c then _ else _) = None =>
               destruct c; [discriminate|]
           end.
    reflexivity.
Qed.

(** The full deep search of the endpoint leaves the state of the search. *)
Lemma deep_search_endpoint_spec (search_request : SearchRequest.t)
  (st : state) :
  exists st',
    deep_search_endpoint rt env search_request st
    = (ApiRaise (HTTPException 500 no_results_message), st')
    /\ search_history st' = search_history st
    /\ (exists new, invocations st' = (invocations st ++ new)%list)
    /\ match SearchRequest.search_layers search_request with
       | Some (_ :: _) => True
       | _ =>
           st' = snd (deep_search_hotel_data rt
                        (SearchRequest.query search_request) st)
       end.
Proof.
  unfold deep_search_endpoint.
  destruct (SearchRequest.search_layers search_request) as [[|layer layers]|].
  1, 3:
    destruct (deep_search_trace rt (SearchRequest.query search_request) st)
      as (ls & syn & st' & new & Hrun & Hlog & _);
    pose proof (deep_search_history rt
                  (SearchRequest.query search_request) st) as Hh;
    rewrite Hrun in *; cbn in Hh; exists st'; cbn; eauto.
  destruct (custom_layer_search_returns
              (SearchRequest.query search_request) (layer :: layers) [] st)
    as (results & st' & new & Hrun & Hh & Hlog).
  exists st'. unfold bind. rewrite Hrun. cbn. eauto.
Qed.

End EndpointProperties.

Section EndpointTheorems.

Variable rt : runtime.
Variable env : api_env.

Lemma specific_layer_search_spec (layer_name query : string) (st : state) :
  exists detail st',
    specific_layer_search rt env layer_name query st
    = (ApiRaise (HTTPException 500 detail), st')
    /\ search_history st' = search_history st
    /\ if is_api_layer layer_name
       then detail = no_results_message
            /\ exists new,
                 invocations st' = (invocations st ++ new)%list
                 /\ (1 <= List.length new <= 2)%nat
       else detail
            = http_exception_str env 400
                ("Invalid layer: " ++ layer_name ++ ". Available: "
                 ++ "['booking', 'financial', 'guest', 'staff', 'policies']")
            /\ st' = st.
Proof.
  unfold specific_layer_search.
  pose proof (find_layer_function rt layer_name) as Hfind.
  destruct (find _ (layer_functions rt)) as [entry|].
  - destruct Hfind as [-> Hstep].
    destruct (Hstep query st)
      as (v & st' & new & Hv & Hh & Hlog & Hg & Hm).
    rewrite Hv. cbn.
    do 2 eexists. split; [reflexivity|]. split; [exact Hh|].
    split; [reflexivity|]. exists new. split; [exact Hlog|].
    rewrite (calls_to_length_split new). lia.
  - rewrite Hfind. cbn. do 2 eexists. repeat split; reflexivity.
Qed.

Lemma search_suggestions_spec (query : string) (st : state) :
  search_suggestions rt query st
  = if String.eqb query ""
    then (Return (PyDict [("suggestions", PyList [])]), st)
    else
      (Return
         match llm_invoke rt Groq (invocations st)
                 (suggestion_prompt_of query) with
         | Raise _ => PyDict [("suggestions", PyList [PyStr query])]
         | Return r =>
             match json_loads rt (content r) with
             | Decoded v => v
             | NotJSON _ => fallback_suggestions query
             | LoadsRaises _ => fallback_suggestions query
             end
         end,
       logged st Groq (suggestion_prompt_of query)).
Proof.
  unfold search_suggestions.
  destruct (String.eqb query ""); [reflexivity|].
  unfold try_except, bind, invoke, logged, json_loads_call, ret, raise.
  cbv zeta.
  destruct (llm_invoke rt Groq (invocations st) _) as [r|e]; [|reflexivity].
  now destruct (json_loads rt (content r)).
Qed.

Lemma serve_history (request : api_request) (st : state) :
  search_history (serve rt env request st) = search_history st.
Proof.
  destruct request as [search_request|layer_name query|query|]; cbn [serve].
  - destruct (deep_search_endpoint_spec rt env search_request st)
      as (st' & Hrun & Hh & _).
    now rewrite Hrun.
  - destruct (specific_layer_search_spec layer_name query st)
      as (detail & st' & Hrun & Hh & _).
    now rewrite Hrun.
  - rewrite search_suggestions_spec. now destruct (String.eqb query "").
  - reflexivity.
Qed.

Lemma serve_all_history (requests : list api_request) (st : state) :
  search_history (serve_all rt env requests st) = search_history st.
Proof.
  unfold serve_all. revert st.
  induction requests as [|request requests IH]; intros st; [reflexivity|].
  cbn [fold_left]. rewrite IH. apply serve_history.
Qed.

(** X8: [deep_search_endpoint] never answers with a [SearchResponse]:
    whatever the request and the providers, it runs the search - the full
    deep search when no layer is asked for, so the providers are invoked -
    and then raises [HTTPException] with status 500, whose detail is the
    message of the [AttributeError] on [deep_search.results]. *)
Theorem deep_search_endpoint_always_500
  (search_request : SearchRequest.t) (st : state) :
  exists st',
    deep_search_endpoint rt env search_request st
    = (ApiRaise (HTTPException 500 no_results_message), st')
    /\ search_history st' = search_history st
    /\ (exists new, invocations st' = (invocations st ++ new)%list)
    /\ match SearchRequest.search_layers search_request with
       | Some (_ :: _) => True
       | _ =>
           st' = snd (deep_search_hotel_data rt
                        (SearchRequest.query search_request) st)
       end.
Proof. apply deep_search_endpoint_spec. Qed.

(** X9: [specific_layer_search] always raises [HTTPException] with status
    500.  For one of the five layer names it first runs the category
    method, with its one or two provider invocations, and the detail is
    the message of the [AttributeError] on [deep_search.results]; for any
    other name no provider is invoked and the 400 the code raises is
    caught by its own handler and wrapped into the 500. *)
Theorem specific_layer_search_always_500
  (layer_name query : string) (st : state) :
  exists detail st',
    specific_layer_search rt env layer_name query st
    = (ApiRaise (HTTPException 500 detail), st')
    /\ search_history st' = search_history st
    /\ if is_api_layer layer_name
       then detail = no_results_message
            /\ exists new,
                 invocations st' = (invocations st ++ new)%list
                 /\ (1 <= List.length new <= 2)%nat
       else detail
            = http_exception_str env 400
                ("Invalid layer: " ++ layer_name ++ ". Available: "
                 ++ "['booking', 'financial', 'guest', 'staff', 'policies']")
            /\ st' = st.
Proof. apply specific_layer_search_spec. Qed.

(** X10: [search_suggestions] never raises and never invokes the
    secondary provider.  On the empty query it invokes no provider and
    returns no suggestion; otherwise it invokes the primary provider once
    and returns the decoded answer as it is, the five fallback suggestions
    when [json.loads] raises on the answer, whatever it raises, and the
    query as the one suggestion when the provider raises. *)
Theorem search_suggestions_behaviour (query : string) (st : state) :
  exists v st',
    search_suggestions rt query st = (Return v, st')
    /\ search_history st' = search_history st
    /\ calls_to Gemini (invocations st') = calls_to Gemini (invocations st)
    /\ if String.eqb query ""
       then v = PyDict [("suggestions", PyList [])] /\ st' = st
       else invocations st'
            = (invocations st ++ [(Groq, suggestion_prompt_of query)])%list
            /\ v = match llm_invoke rt Groq (invocations st)
                           (suggestion_prompt_of query) with
                   | Raise _ => PyDict [("suggestions", PyList [PyStr query])]
                   | Return r =>
                       match json_loads rt (content r) with
                       | Decoded decoded_value => decoded_value
                       | NotJSON _ => fallback_suggestions query
                       | LoadsRaises _ => fallback_suggestions query
                       end
                   end.
Proof.
  rewrite search_suggestions_spec.
  destruct (String.eqb query ""); do 2 eexists;
    (split; [reflexivity|]); cbn [logged search_history invocations].
  - now repeat split.
  - split; [reflexivity|]. split; [|now split].
    rewrite calls_to_app. cbn. now rewrite app_nil_r.
Qed.

(** X11: no sequence of requests to the endpoints changes what
    [get_analytics] reports: deep searches, layer searches and suggestion
    requests leave [search_history] as it is, so on the module's search
    object the search count stays 0 and the last search stays [None]. *)
Theorem analytics_never_change (requests : list api_request) (st : state) :
  get_analytics env (serve_all rt env requests st) = get_analytics env st
  /\ exists system,
       field (get_analytics env (serve_all rt env requests init_state))
         "system" = Some system
       /\ field system "search_count" = Some (PyInt 0)
       /\ field system "last_search" = Some PyNone.
Proof.
  assert (Hext : forall st1 st2,
             search_history st1 = search_history st2 ->
             get_analytics env st1 = get_analytics env st2).
  { intros st1 st2 H.
    unfold get_analytics, analytics_search_count, analytics_last_search.
    now rewrite H. }
  split; [apply Hext, serve_all_history|].
  rewrite (Hext _ init_state (serve_all_history requests init_state)).
  eexists. repeat split.
Qed.

End EndpointTheorems.

(** ** The handlers of [hotel_ai_server.py] and [simple_api.py] *)

Section HandlerProperties.

Variable henv : handler_env.

(** The mock results of a text, with what the handler computes from
    them. *)
Lemma generate_mock_results_text (query : string) :
  exists results,
    hotel_ai_server.generate_mock_results henv (PyStr query) = Done results
    /\ dict_keys results = mock_layer_keys (str_lower henv query)
    /\ forallb (fun item => is_nonempty_list (snd item)) results = true
    /\ dict_keys (hotel_ai_server.results_per_layer results)
       = dict_keys results
    /\ (1 <= List.length results <= 4)%nat.
Proof.
  unfold hotel_ai_server.generate_mock_results, mock_layer_keys.
  cbv zeta.
  destruct (any_word_in ["booking"; "room"; "reserve"; "available"] _);
    destruct (any_word_in ["financial"; "revenue"; "cost"; "price"] _);
    destruct (any_word_in ["guest"; "customer"; "profile"] _);
    destruct (any_word_in ["staff"; "employee"; "schedule"] _);
    eexists; (split; [reflexivity|]);
    repeat split; cbn; lia.
Qed.

(** X12: on every text [generate_mock_results] returns at least one layer
    and at most four.  Its keys are, in this order, [booking],
    [financial], [guest] and [staff], each exactly when one of its words
    occurs in the lowercased query, and [general] alone exactly when none
    occurs; every entry is a list with at least one item. *)
Theorem generate_mock_results_layers (query : string) :
  exists results,
    hotel_ai_server.generate_mock_results henv (PyStr query) = Done results
    /\ dict_keys results = mock_layer_keys (str_lower henv query)
    /\ forallb (fun item => is_nonempty_list (snd item)) results = true
    /\ (1 <= List.length results <= 4)%nat
    /\ (existsb (String.eqb "general") (dict_keys results)
        = negb
            (any_word_in ["booking"; "room"; "reserve"; "available"]
               (str_lower henv query)
             || any_word_in ["financial"; "revenue"; "cost"; "price"]
                  (str_lower henv query)
             || any_word_in ["guest"; "customer"; "profile"]
                  (str_lower henv query)
             || any_word_in ["staff"; "employee"; "schedule"]
                  (str_lower henv query))).
Proof.
  destruct (generate_mock_results_text query)
    as (results & Hrun & Hkeys & Hlists & _ & Hlen).
  exists results. repeat split; try assumption; try lia.
  rewrite Hkeys. unfold mock_layer_keys. cbv zeta.
  destruct (any_word_in ["booking"; "room"; "reserve"; "available"] _);
    destruct (any_word_in ["financial"; "revenue"; "cost"; "price"] _);
    destruct (any_word_in ["guest"; "customer"; "profile"] _);
    destruct (any_word_in ["staff"; "employee"; "schedule"] _);
    reflexivity.
Qed.



End HandlerProperties.

(** ** The prompts in the log *)

Lemma prefix_app (w b : string) : prefix w (w ++ b) = true.
Proof.
  induction w as [|c w IH]; simpl; [now destruct b|].
  destruct (ascii_dec c c) as [_|Hne]; [exact IH | contradiction].
Qed.

Lemma prefix_split (w s : string) :
  prefix w s = true -> exists b, s = w ++ b.
Proof.
  revert s; induction w as [|c w IH]; intros s H.
  - now exists s.
  - destruct s as [|c' s]; simpl in H; [discriminate|].
    destruct (ascii_dec c c') as [<-|_]; [|discriminate].
    destruct (IH s H) as [b ->]. now exists b.
Qed.

Lemma contains_intro (w a b : string) : contains w (a ++ w ++ b) = true.
Proof.
  induction a as [|c a IH].
  - cbn [append]. destruct (w ++ b) eqn:E; cbn [contains];
      rewrite <- E, prefix_app; reflexivity.
  - cbn [append contains]. rewrite IH. now destruct (prefix w _).
Qed.

Lemma contains_elim (w s : string) :
  contains w s = true -> exists a b, s = a ++ w ++ b.
Proof.
  induction s as [|c s IH]; cbn [contains].
  - destruct (prefix w "") eqn:E; [|discriminate].
    intros _. destruct (prefix_split _ _ E) as [b ->]. now exists "", b.
  - destruct (prefix w (String c s)) eqn:E.
    + intros _. destruct (prefix_split _ _ E) as [b ->]. now exists "", b.
    + intros H. destruct (IH H) as (a & b & ->).
      now exists (String c a), b.
Qed.

Lemma contains_embed (w s a b : string) :
  contains w s = true -> contains w (a ++ s ++ b) = true.
Proof.
  intros H. destruct (contains_elim _ _ H) as (a' & b' & ->).
  rewrite !append_assoc. rewrite <- (append_assoc a a').
  apply contains_intro.
Qed.

Lemma enhanced_prompt_embeds (query prompt search_type : string) :
  contains query prompt = true ->
  contains query (enhanced_prompt_of prompt search_type) = true.
Proof.
  intros H.
  assert (exists a b, enhanced_prompt_of prompt search_type
                      = a ++ prompt ++ b) as (a & b & ->).
  { exists (unlines
              [ ""
              ; "        You are a hotel information specialist with deep domain knowledge."
              ; "        "
              ; "        Your task is to search through available hotel data and provide comprehensive results."
              ; "        "
              ; "        Query: " ]).
    eexists.
    unfold enhanced_prompt_of, unlines. cbn [String.concat].
    rewrite !append_assoc. reflexivity. }
  now apply contains_embed.
Qed.

Lemma layer_prompts_embed (query : string) :
  contains query (booking_prompt query) = true
  /\ contains query (financial_prompt query) = true
  /\ contains query (guest_prompt query) = true
  /\ contains query (staff_prompt query) = true
  /\ contains query (policies_prompt query) = true.
Proof.
  repeat split.
  - assert (exists a b, booking_prompt query = a ++ query ++ b)
      as (a & b & ->); [|apply contains_intro].
    exists (nl ++ "        Search for booking information related to: "
            ++ dq).
    eexists. unfold booking_prompt, unlines. cbn [String.concat].
    rewrite !append_assoc. reflexivity.
  - assert (exists a b, financial_prompt query = a ++ query ++ b)
      as (a & b & ->); [|apply contains_intro].
    exists (nl ++ "        Search for financial information related to: "
            ++ dq).
    eexists. unfold financial_prompt, unlines. cbn [String.concat].
    rewrite !append_assoc. reflexivity.
  - assert (exists a b, guest_prompt query = a ++ query ++ b)
      as (a & b & ->); [|apply contains_intro].
    exists (nl ++ "        Search for guest information related to: " ++ dq).
    eexists. unfold guest_prompt, unlines. cbn [String.concat].
    rewrite !append_assoc. reflexivity.
  - assert (exists a b, staff_prompt query = a ++ query ++ b)
      as (a & b & ->); [|apply contains_intro].
    exists (nl ++ "        Search for staff information related to: " ++ dq).
    eexists. unfold staff_prompt, unlines. cbn [String.concat].
    rewrite !append_assoc. reflexivity.
  - assert (exists a b, policies_prompt query = a ++ query ++ b)
      as (a & b & ->); [|apply contains_intro].
    exists (nl
            ++ "        Search for hotel policies and procedures related to: "
            ++ dq).
    eexists. unfold policies_prompt, unlines. cbn [String.concat].
    rewrite !append_assoc. reflexivity.
Qed.

Lemma synthesis_prompt_embeds (json_dumps : py_value -> string)
  (query : string) (results : py_value) :
  contains query (synthesis_prompt_of json_dumps query results) = true.
Proof.
  assert (exists a b, synthesis_prompt_of json_dumps query results
                      = a ++ query ++ b) as (a & b & ->);
    [|apply contains_intro].
  exists (unlines
            [ ""
            ; "        You are a hotel data analyst. Based on the following search results, "
            ; "        provide a comprehensive analysis for the query: " ]
          ++ dq).
  eexists. unfold synthesis_prompt_of, unlines. cbn [String.concat].
  rewrite !append_assoc. reflexivity.
Qed.

Section Attempts.

Variable rt : runtime.

(** A category method's [try] as one attempt of the executor. *)
Lemma guarded_execute_attempt (search_prompt search_type : string)
  (st : state) :
  exists v st',
    try_except (_execute_search rt search_prompt search_type)
      (fun e => ret (PyDict [("error", PyStr (exc_str e))])) st
    = (Return v, st')
    /\ invocations st'
       = (invocations st
            ++ attempt_log
                 (enhanced_prompt_of search_prompt search_type,
                  primary_fails rt (invocations st)
                    (enhanced_prompt_of search_prompt search_type)))%list.
Proof.
  rewrite guarded_execute_spec. do 2 eexists.
  split; [reflexivity | apply execute_log].
Qed.

Lemma search_layers_attempt (query : string) :
  Forall2
    (fun (layer : string * (string -> M py_value)) (prompt : string) =>
       forall st, exists v st',
         snd layer query st = (Return v, st')
         /\ invocations st'
            = (invocations st
                 ++ attempt_log
                      (prompt, primary_fails rt (invocations st) prompt))%list)
    (search_layers rt) (layer_prompts query).
Proof.
  unfold search_layers, layer_prompts, category_prompts. cbn [map fst snd].
  repeat (apply Forall2_cons;
          [intros st; apply guarded_execute_attempt|]).
  apply Forall2_nil.
Qed.

Lemma run_layers_attempts (query : string)
  (layers : list (string * (string -> M py_value)))
  (prompts : list string) :
  Forall2
    (fun (layer : string * (string -> M py_value)) (prompt : string) =>
       forall st, exists v st',
         snd layer query st = (Return v, st')
         /\ invocations st'
            = (invocations st
                 ++ attempt_log
                      (prompt, primary_fails rt (invocations st) prompt))%list)
    layers prompts ->
  forall (i : nat) (results : py_dict) (st : state),
  exists results' st',
    run_layers query i layers results st = (Return results', st')
    /\ invocations st'
       = (invocations st
            ++ flat_map attempt_log
                 (executor_attempts rt (invocations st) prompts))%list.
Proof.
  induction 1 as [|[name f] prompt layers prompts Hf _ IH];
    intros i results st.
  - exists results, st. cbn. now rewrite app_nil_r.
  - cbn [snd] in Hf. destruct (Hf st) as (v & st1 & Hv & Hl1).
    destruct (IH (S i) (dict_set results (layer_key i name) v) st1)
      as (results' & st' & Hrun & Hl).
    exists results', st'.
    rewrite (run_layers_cons _ _ _ _ _ _ _ _ _ Hv), Hrun.
    split; [reflexivity|].
    cbn [executor_attempts flat_map].
    rewrite Hl, Hl1. now rewrite app_assoc.
Qed.

(** The log of a deep search, attempt by attempt. *)
Lemma deep_search_attempts (query : string) (st : state) :
  exists (layers : py_dict) (st5 : state),
    run_layers query 0 (search_layers rt) [] st = (Return layers, st5)
    /\ invocations st5
       = (invocations st
            ++ flat_map attempt_log
                 (executor_attempts rt (invocations st)
                    (layer_prompts query)))%list
    /\ invocations (snd (deep_search_hotel_data rt query st))
       = (invocations st5
            ++ attempt_log
                 (synthesis_prompt_of (json_dumps rt) query (PyDict layers),
                  is_raise
                    (llm_invoke rt Groq (invocations st5)
                       (synthesis_prompt_of (json_dumps rt) query
                          (PyDict layers)))))%list.
Proof.
  destruct (deep_search_steps rt query st)
    as (layers & st5 & results & st' & Hloop & _ & Hsyn & Hrun & _).
  destruct (run_layers_attempts query (search_layers rt)
              (layer_prompts query) (search_layers_attempt query) 0 [] st)
    as (layers0 & st50 & Hloop' & Hl5).
  rewrite Hloop in Hloop'. injection Hloop' as <- <-.
  exists layers, st5.
  split; [exact Hloop|]. split; [exact Hl5|].
  rewrite Hrun. cbn [snd].
  rewrite synthesize_spec in Hsyn.
  unfold attempt_log. cbn [fst snd].
  destruct (llm_invoke rt Groq (invocations st5) _) as [r|e].
  - now injection Hsyn as _ <-.
  - cbn [logged invocations] in Hsyn.
    destruct (llm_invoke rt Gemini _ _);
      injection Hsyn as _ <-; cbn [logged invocations is_raise];
      now rewrite <- app_assoc.
Qed.

(** X15: the log of one deep search is six attempts in a row.  The first
    five are the executor's attempts on the enhanced prompts of the five
    layers, in their order: each is one invocation of the primary
    provider, followed at once by one of the secondary provider on the
    very same prompt exactly when the primary attempt failed on the log
    so far.  The sixth is the synthesis, on the prompt built from the
    five layer entries, with the secondary provider exactly when the
    primary call raised.  Every one of the six prompts embeds the query as
    it was given. *)
Theorem deep_search_log_structure (query : string) (st : state) :
  exists (layers : py_dict) (st5 : state),
    run_layers query 0 (search_layers rt) [] st = (Return layers, st5)
    /\ invocations st5
       = (invocations st
            ++ flat_map attempt_log
                 (executor_attempts rt (invocations st)
                    (layer_prompts query)))%list
    /\ invocations (snd (deep_search_hotel_data rt query st))
       = (invocations st5
            ++ attempt_log
                 (synthesis_prompt_of (json_dumps rt) query (PyDict layers),
                  is_raise
                    (llm_invoke rt Groq (invocations st5)
                       (synthesis_prompt_of (json_dumps rt) query
                          (PyDict layers)))))%list
    /\ List.length
         (executor_attempts rt (invocations st) (layer_prompts query))
       = 5%nat
    /\ Forall (fun prompt => contains query prompt = true)
         (layer_prompts query
            ++ [synthesis_prompt_of (json_dumps rt) query (PyDict layers)]).
Proof.
  destruct (deep_search_attempts query st)
    as (layers & st5 & Hloop & Hl5 & Hlog).
  exists layers, st5.
  repeat (split; [assumption|]).
  split; [reflexivity|].
  apply Forall_app. split.
  - destruct (layer_prompts_embed query) as (H1 & H2 & H3 & H4 & H5).
    unfold layer_prompts, category_prompts. cbn [map fst snd].
    repeat constructor; now apply enhanced_prompt_embeds.
  - constructor; [|constructor]. apply synthesis_prompt_embeds.
Qed.

End Attempts.
